(** * kamikakushi-hp: the static performance checker [performance-test.js]

    A shallow embedding of [PerformanceTestRunner] and the properties its
    specification states about it.

    Conventions of the model.
    - A JavaScript string is a Rocq [string] holding its UTF-8 bytes.  Every
      character the program tests for (tags, property names, dots, braces,
      white space of the ASCII range) is a single byte below 128, and no byte
      of a longer UTF-8 sequence is below 128, so scanning bytes and scanning
      UTF-16 code units find the same matches.  White space outside ASCII
      (U+00A0, U+3000, ...) is the one thing [\s] of the model does not see.
    - A JavaScript number is an exact rational ([Q]) or integer ([Z], [nat]
      for counters).  The thresholds and their products by 1.5 are integers,
      so the comparisons of the size classifiers are exact for every finite
      double; [Math.round (size / 1024 * 100)] is exact for every size below
      2^53 / 25 bytes.  The division by 100 and the running sum are the exact
      ones, where the program holds the nearest double.
    - The file system, the clock and the console are explicit: an [Env] is read,
      a [World] (the runner's [results], the console lines, the report file)
      is threaded through the methods. *)

From Stdlib Require Import Bool Arith ZArith QArith Qround Lia Lqa List Ascii String.
From Stdlib Require Import DecimalString Permutation.
Import ListNotations.

Close Scope Q_scope.
Local Open Scope string_scope.
Local Open Scope nat_scope.
Local Open Scope list_scope.

(** ** JavaScript strings *)

Module JsString.

Definition code (c : ascii) : nat := nat_of_ascii c.

(** [String.prototype.toLowerCase], letter by letter.  Only [A-Z] change;
    a character outside ASCII is kept (JavaScript maps it to a character
    outside ASCII again, U+212A to [k] apart), so a result equal to one of
    the ASCII keys of this program is equal in the model too. *)
Definition lower_char (c : ascii) : ascii :=
  if (65 <=? code c) && (code c <=? 90) then ascii_of_nat (code c + 32) else c.

Definition upper_char (c : ascii) : ascii :=
  if (97 <=? code c) && (code c <=? 122) then ascii_of_nat (code c - 32) else c.

Fixpoint toLowerCase (s : string) : string :=
  match s with
  | EmptyString => EmptyString
  | String c s' => String (lower_char c) (toLowerCase s')
  end.

Fixpoint toUpperCase (s : string) : string :=
  match s with
  | EmptyString => EmptyString
  | String c s' => String (upper_char c) (toUpperCase s')
  end.

(** [s.split(sep)] for a separator of one character. *)
Fixpoint split (sep : ascii) (s : string) : list string :=
  match s with
  | EmptyString => [EmptyString]
  | String c s' =>
      if Ascii.eqb c sep then EmptyString :: split sep s'
      else match split sep s' with
           | [] => [String c EmptyString]
           | seg :: segs => String c seg :: segs
           end
  end.

(** [s.slice(0, n)]. *)
Fixpoint take (n : nat) (s : string) : string :=
  match n, s with
  | S n', String c s' => String c (take n' s')
  | _, _ => EmptyString
  end.

(** [str.repeat(n)]. *)
Fixpoint repeat (s : string) (n : nat) : string :=
  match n with
  | O => EmptyString
  | S n' => String.append s (repeat s n')
  end.

(** The line feed, [\n]. *)
Definition LF : ascii := ascii_of_nat 10.

(** [String(n)] for a natural number and for an integer. *)
Definition of_nat (n : nat) : string := NilZero.string_of_uint (Nat.to_uint n).
Definition of_Z (z : Z) : string := NilZero.string_of_int (Z.to_int z).

End JsString.

(** ** Regular expressions

    A backtracking matcher with the priorities of ECMAScript: a greedy
    quantifier tries one more iteration first, a lazy one tries to stop first,
    an alternative tries its left side first.  Only what the program's regular
    expressions use is there; capture groups have no effect on what the
    program reads and are left out. *)

Module RegExp.

Inductive item : Type :=
| One (c : ascii)          (* a character *)
| Space                    (* \s *)
| NonSpace.                (* \S *)

Inductive regex : Type :=
| Empty                                       (* matches the empty string *)
| Class (negated : bool) (items : list item)  (* [...] and [^...] *)
| Seq (r1 r2 : regex)
| Alt (r1 r2 : regex)                         (* r1|r2 *)
| Star (greedy : bool) (r : regex).           (* r* and r*? *)

Definition Chr (c : ascii) : regex := Class false [One c].
Definition Plus (r : regex) : regex := Seq r (Star true r).      (* r+ *)
Definition Opt (r : regex) : regex := Alt r Empty.               (* r? *)
Definition AnyBut (c : ascii) : regex := Class true [One c].     (* [^c] *)
Definition Anything : regex := Class false [Space; NonSpace].    (* [\s\S] *)
Definition WhiteSpace : regex := Class false [Space].            (* \s *)

(** A sequence of several parts. *)
Fixpoint Cat (rs : list regex) : regex :=
  match rs with
  | [] => Empty
  | [r] => r
  | r :: rs' => Seq r (Cat rs')
  end.

(** A literal run of characters. *)
Fixpoint Lit (s : string) : regex :=
  match s with
  | EmptyString => Empty
  | String c EmptyString => Chr c
  | String c s' => Seq (Chr c) (Lit s')
  end.

(** White space of the ASCII range: tab, line feed, vertical tab, form feed,
    carriage return, space.  The [\s] of JavaScript also matches the white
    space outside ASCII (U+00A0, U+2028, U+3000, U+FEFF, ...); on a text that
    holds such a character the counts of the stylesheet patterns can differ
    from those of the model. *)
Definition is_space (c : ascii) : bool :=
  let n := JsString.code c in ((9 <=? n) && (n <=? 13)) || (n =? 32).

(** Canonicalize of the specification: with the [i] flag both sides are
    compared upper-cased. *)
Definition canon (ignoreCase : bool) (c : ascii) : ascii :=
  if ignoreCase then JsString.upper_char c else c.

Definition item_matches (ignoreCase : bool) (c : ascii) (i : item) : bool :=
  match i with
  | One d => Ascii.eqb (canon ignoreCase c) (canon ignoreCase d)
  | Space => is_space c
  | NonSpace => negb (is_space c)
  end.

Definition class_matches (ignoreCase negated : bool) (items : list item) (c : ascii) : bool :=
  xorb negated (existsb (item_matches ignoreCase c) items).

(** The input left after a match, or [None]; [k] is the rest of the pattern. *)
Definition cont : Type := string -> option string.

(** Backtracking: the second attempt is made only after the first failed. *)
Notation "a 'orelse' b" :=
  (match a with Some rest => Some rest | None => b end)
    (at level 70, no associativity, only parsing).

(** Iterations of a quantified atom.  An iteration that consumes nothing is
    refused, as in ECMAScript; [fuel] is above the length of the input, which
    every accepted iteration shortens, so it never runs out. *)
Fixpoint iterate (atom : string -> cont -> option string) (greedy : bool)
         (fuel : nat) (s : string) (k : cont) : option string :=
  match fuel with
  | O => k s
  | S fuel' =>
      let again (_ : unit) :=
        atom s (fun s' =>
                  if String.length s' <? String.length s
                  then iterate atom greedy fuel' s' k else None) in
      if greedy then again tt orelse k s else k s orelse again tt
  end.

Fixpoint run (ignoreCase : bool) (r : regex) (s : string) (k : cont) : option string :=
  match r with
  | Empty => k s
  | Class negated items =>
      match s with
      | String c s' => if class_matches ignoreCase negated items c then k s' else None
      | EmptyString => None
      end
  | Seq r1 r2 => run ignoreCase r1 s (fun s' => run ignoreCase r2 s' k)
  | Alt r1 r2 => run ignoreCase r1 s k orelse run ignoreCase r2 s k
  | Star greedy r1 => iterate (run ignoreCase r1) greedy (S (String.length s)) s k
  end.

(** A match that starts at the head of [s]: the matched text and the rest. *)
Definition match_here (ignoreCase : bool) (r : regex) (s : string) : option (string * string) :=
  match run ignoreCase r s Some with
  | Some rest => Some (JsString.take (String.length s - String.length rest) s, rest)
  | None => None
  end.

(** What a global scan sees, left to right: the characters no match covers,
    and the matches. *)
Inductive piece : Type :=
| Skipped (c : ascii)
| Matched (m : string).

(** The loop of a regular expression with the [g] flag: the leftmost match
    from the current position, then on from its end (one character further
    after an empty match). *)
Fixpoint scan (ignoreCase : bool) (r : regex) (fuel : nat) (s : string) : list piece :=
  match fuel with
  | O => []
  | S fuel' =>
      match match_here ignoreCase r s with
      | Some (EmptyString, _) =>
          match s with
          | EmptyString => [Matched EmptyString]
          | String c s' => Matched EmptyString :: Skipped c :: scan ignoreCase r fuel' s'
          end
      | Some (m, rest) => Matched m :: scan ignoreCase r fuel' rest
      | None =>
          match s with
          | EmptyString => []
          | String c s' => Skipped c :: scan ignoreCase r fuel' s'
          end
      end
  end.

Definition pieces (ignoreCase : bool) (r : regex) (s : string) : list piece :=
  scan ignoreCase r (S (String.length s)) s.

Fixpoint matches_of (ps : list piece) : list string :=
  match ps with
  | [] => []
  | Matched m :: ps' => m :: matches_of ps'
  | Skipped _ :: ps' => matches_of ps'
  end.

Fixpoint skipped_of (ps : list piece) : string :=
  match ps with
  | [] => EmptyString
  | Matched _ :: ps' => skipped_of ps'
  | Skipped c :: ps' => String c (skipped_of ps')
  end.

(** [str.match(/r/g)]: the matches in order, [null] ([None]) when there is none. *)
Definition match_g (ignoreCase : bool) (r : regex) (s : string) : option (list string) :=
  match matches_of (pieces ignoreCase r s) with
  | [] => None
  | ms => Some ms
  end.

(** [str.replace(/r/g, '')]. *)
Definition remove_g (ignoreCase : bool) (r : regex) (s : string) : string :=
  skipped_of (pieces ignoreCase r s).

(** [x || []] on the result of [match]. *)
Definition or_empty (x : option (list string)) : list string :=
  match x with Some ms => ms | None => [] end.

End RegExp.


(** ** Numbers *)

Module Number.

Local Open Scope Q_scope.

(** [Math.round]: the nearest integer, a half going up. *)
Definition Math_round (x : Q) : Z := Qfloor (x + (1 # 2)).

(** [Math.round(x * 100) / 100]. *)
Definition round2 (x : Q) : Q := inject_Z (Math_round (x * 100)) / 100.

(** [Math.round(stats.size / 1024 * 100) / 100] for a size in bytes, as
    the exact quotient of the rounded integer by 100; the program holds the
    double next to it. *)
Definition kilobytes (size : N) : Q := round2 (inject_Z (Z.of_N size) / 1024).

(** What a property read or a coercion gives where a number is expected;
    [None] is NaN. *)
Definition number : Type := option Q.

(** [a <= b] and [a > b]; both are false on NaN. *)
Definition le (a : Q) (b : number) : bool :=
  match b with Some b' => Qle_bool a b' | None => false end.

Definition gt (a : Q) (b : number) : bool :=
  match b with Some b' => negb (Qle_bool a b') | None => false end.

(** [a * b]. *)
Definition times (a : number) (b : Q) : number :=
  match a with Some a' => Some (a' * b) | None => None end.

Local Open Scope Z_scope.

(** [String(x)] for a number of at most two decimals that is not negative
    and below 2^44, where the double next to it prints as these decimals:
    [12], [12.5], [12.05].  Outside this range (more decimals, a negative
    number) JavaScript prints other digits than this function. *)
Definition toString (x : Q) : string :=
  let k := Qfloor (x * 100)%Q in
  let whole := JsString.of_Z (k / 100) in
  let cents := k mod 100 in
  if cents =? 0 then whole
  else if cents mod 10 =? 0 then String.concat "" [whole; "."; JsString.of_Z (cents / 10)]
  else if cents <? 10 then String.concat "" [whole; ".0"; JsString.of_Z cents]
  else String.concat "" [whole; "."; JsString.of_Z cents].

End Number.

(** ** Objects used as tables *)

Module JsObject.

(** The own properties of an object, in the order [Object.keys] lists them:
    array indices by value, then the other keys as they were created. *)
Definition t (A : Type) : Type := list (string * A).

Definition keys {A} (o : t A) : list string := map fst o.
Definition entries {A} (o : t A) : list (string * A) := o.

Fixpoint own {A} (o : t A) (k : string) : option A :=
  match o with
  | [] => None
  | (k', v) :: o' => if String.eqb k k' then Some v else own o' k
  end.

(** The properties every object literal inherits from [Object.prototype]. *)
Definition prototype_keys : list string :=
  [ "constructor"; "__proto__"; "hasOwnProperty"; "isPrototypeOf";
    "propertyIsEnumerable"; "toLocaleString"; "toString"; "valueOf";
    "__defineGetter__"; "__defineSetter__"; "__lookupGetter__"; "__lookupSetter__" ].

Definition inherited (k : string) : bool := existsb (String.eqb k) prototype_keys.

(** What [o[k]] reads on a table of numbers. *)
Inductive read : Type :=
| Own (q : Q)        (* an entry of the table *)
| Inherited          (* a function or object of [Object.prototype] *)
| Undefined.

Definition get (o : t Q) (k : string) : read :=
  match own o k with
  | Some q => Own q
  | None => if inherited k then Inherited else Undefined
  end.

(** [o[k] || d]: [undefined] and [0] are falsy, an object is truthy. *)
Definition or_default (r : read) (d : Q) : read :=
  match r with
  | Own q => if Qeq_bool q 0 then Own d else Own q
  | Inherited => Inherited
  | Undefined => Own d
  end.

(** The number a read stands for in a comparison or a product: a function
    or an object of the prototype converts to NaN. *)
Definition to_number (r : read) : Number.number :=
  match r with Own q => Some q | Inherited | Undefined => None end.

Definition digit (c : ascii) : option N :=
  let n := JsString.code c in
  if (48 <=? n) && (n <=? 57) then Some (N.of_nat (n - 48)) else None.

Fixpoint digits (s : string) (acc : N) : option N :=
  match s with
  | EmptyString => Some acc
  | String c s' =>
      match digit c with
      | Some d => digits s' (acc * 10 + d)%N
      | None => None
      end
  end.

(** The array index a key denotes: a canonical decimal below 2^32 - 1. *)
Definition array_index (k : string) : option N :=
  match k with
  | EmptyString => None
  | String "0" EmptyString => Some 0%N
  | String "0" _ => None
  | _ => match digits k 0%N with
         | Some n => if (n <? 4294967295)%N then Some n else None
         | None => None
         end
  end.

Fixpoint replace {A} (o : t A) (k : string) (v : A) : t A :=
  match o with
  | [] => []
  | (k', v') :: o' => if String.eqb k k' then (k', v) :: o' else (k', v') :: replace o' k v
  end.

(** A new index goes before the first key that is no index or a larger one. *)
Fixpoint insert_index {A} (o : t A) (n : N) (k : string) (v : A) : t A :=
  match o with
  | [] => [(k, v)]
  | (k', v') :: o' =>
      match array_index k' with
      | Some n' => if (n' <? n)%N then (k', v') :: insert_index o' n k v
                   else (k, v) :: (k', v') :: o'
      | None => (k, v) :: (k', v') :: o'
      end
  end.

(** [o[k] = v] for an object [v].  Assigning to [__proto__] replaces the
    prototype and creates no own property. *)
Definition set {A} (o : t A) (k : string) (v : A) : t A :=
  if String.eqb k "__proto__" then o
  else match own o k with
       | Some _ => replace o k v
       | None => match array_index k with
                 | Some n => insert_index o n k v
                 | None => o ++ [(k, v)]
                 end
       end.

End JsObject.

(** ** [path.extname] of Node.js (POSIX) *)

Module path.

Local Open Scope Z_scope.

Record scan_state : Type := {
  startDot : Z;
  startPart : Z;
  end_ : Z;
  matchedSlash : bool;
  preDotState : Z
}.

(** The loop over the characters from the last to the first; [i] is the
    index of the head of [rev_chars]. *)
Fixpoint scan_back (rev_chars : list ascii) (i : Z) (st : scan_state) : scan_state :=
  match rev_chars with
  | [] => st
  | code :: rest =>
      if Ascii.eqb code "/" then
        if negb (matchedSlash st)
        then {| startDot := startDot st; startPart := i + 1; end_ := end_ st;
                matchedSlash := matchedSlash st; preDotState := preDotState st |}
        else scan_back rest (i - 1) st
      else
        let st1 :=
          if end_ st =? -1
          then {| startDot := startDot st; startPart := startPart st; end_ := i + 1;
                  matchedSlash := false; preDotState := preDotState st |}
          else st in
        let st2 :=
          if Ascii.eqb code "." then
            if startDot st1 =? -1
            then {| startDot := i; startPart := startPart st1; end_ := end_ st1;
                    matchedSlash := matchedSlash st1; preDotState := preDotState st1 |}
            else if negb (preDotState st1 =? 1)
            then {| startDot := startDot st1; startPart := startPart st1; end_ := end_ st1;
                    matchedSlash := matchedSlash st1; preDotState := 1 |}
            else st1
          else if negb (startDot st1 =? -1)
          then {| startDot := startDot st1; startPart := startPart st1; end_ := end_ st1;
                  matchedSlash := matchedSlash st1; preDotState := -1 |}
          else st1 in
        scan_back rest (i - 1) st2
  end.

Definition extname (p : string) : string :=
  let st := scan_back (rev (list_ascii_of_string p)) (Z.of_nat (String.length p) - 1)
              {| startDot := -1; startPart := 0; end_ := -1;
                 matchedSlash := true; preDotState := 0 |} in
  if (startDot st =? -1) || (end_ st =? -1) || (preDotState st =? 0)
     || ((preDotState st =? 1) && (startDot st =? end_ st - 1)
         && (startDot st =? startPart st + 1))
  then EmptyString
  else substring (Z.to_nat (startDot st)) (Z.to_nat (end_ st - startDot st)) p.

End path.

(** ** The data of the runner *)

Module Fs.
(** A file as the program reads it: [statSync(p).size] and
    [readFileSync(p, 'utf8')]. *)
Record File : Type := { size : N; content : string }.

(** The part of the file system and of the clock a run looks at, for a
    run in which every call of the file system succeeds: every path that
    exists has a size and a content, and every entry of [assets] has a
    size.  A call that throws (a path that disappears between [existsSync]
    and [statSync], a directory named [styles.css], an [assets] that is no
    directory, a dangling link in it) is outside the model.  [now] is the
    time one call of [saveJSONReport] reads; a call at another time is a
    call under another [Env]. *)
Record Env : Type := {
  file : string -> option File;          (* [existsSync] and the file behind a path *)
  assets : option (list (string * N));   (* [readdirSync('assets')] with the size of each entry *)
  now : string                           (* [new Date().toISOString()] *)
}.
End Fs.

Module Css.
Record analysis : Type := {
  totalLines : nat;
  totalRules : nat;
  mediaQueries : nat;
  keyframes : nat;
  willChangeUsage : nat;
  transformUsage : nat;
  animationUsage : nat;
  transitionUsage : nat;
  complexSelectors : nat;
  importantUsage : nat
}.
End Css.

Module Js.
Record analysis : Type := {
  totalLines : nat;
  eventListeners : nat;
  setTimeoutUsage : nat;
  setIntervalUsage : nat;
  animationFrameUsage : nat;
  domQueries : nat;
  scriptTags : nat
}.
End Js.

Module FileSize.
Record entry : Type := { size : Q; status : string }.
End FileSize.

Module Asset.
Record detail : Type := { size : Q; type : string; status : string }.

Record analysis : Type := {
  totalAssets : nat;
  totalSize : Q;
  details : JsObject.t detail
}.
End Asset.

Record Recommendation : Type := {
  type : string;
  priority : string;
  message : string
}.

(** [this.results].  An analysis that was not made yet is the empty object
    [{}] of the constructor: [None]. *)
Record Results : Type := {
  fileAnalysis : JsObject.t FileSize.entry;
  cssAnalysis : option Css.analysis;
  jsAnalysis : option Js.analysis;
  assetAnalysis : option Asset.analysis;
  recommendations : list Recommendation
}.

Record Summary : Type := {
  totalFiles : nat;
  totalRecommendations : nat;
  highPriorityIssues : nat;
  mediumPriorityIssues : nat;
  lowPriorityIssues : nat
}.

(** The object [saveJSONReport] serializes into [performance-report.json]. *)
Record Report : Type := {
  timestamp : string;
  score : Z;
  summary : Summary;
  report_details : Results          (* the field [details] *)
}.

(** A runner and what it has done to the outside so far. *)
Record World : Type := {
  results : Results;
  stdout : list string;             (* one entry for each [console.log] *)
  stderr : list string;             (* one entry for each [console.error] *)
  reportFile : option Report;       (* [performance-report.json], once written *)
  exitCode : option Z               (* set by [process.exit] *)
}.

(** ** Methods as state transformers that may throw *)

Inductive outcome (A : Type) : Type :=
| Returned (a : A) (w : World)
| Thrown (error : string) (w : World).

Arguments Returned {A} a w.
Arguments Thrown {A} error w.

Definition M (A : Type) : Type := World -> outcome A.

Definition ret {A} (a : A) : M A := fun w => Returned a w.

Definition bind {A B} (m : M A) (f : A -> M B) : M B :=
  fun w => match m w with
           | Returned a w' => f a w'
           | Thrown e w' => Thrown e w'
           end.

Notation "x <- m ;; k" := (bind m (fun x => k))
  (at level 61, m at next level, right associativity).
Notation "m ;; k" := (bind m (fun _ => k))
  (at level 61, right associativity).

Definition throw {A} (e : string) : M A := fun w => Thrown e w.

Definition this_results : M Results := fun w => Returned (results w) w.

Definition update (f : Results -> Results) : M unit :=
  fun w => Returned tt {| results := f (results w); stdout := stdout w; stderr := stderr w;
                          reportFile := reportFile w; exitCode := exitCode w |}.

Definition console_log (line : string) : M unit :=
  fun w => Returned tt {| results := results w; stdout := stdout w ++ [line]; stderr := stderr w;
                          reportFile := reportFile w; exitCode := exitCode w |}.

Definition console_error (line : string) : M unit :=
  fun w => Returned tt {| results := results w; stdout := stdout w; stderr := stderr w ++ [line];
                          reportFile := reportFile w; exitCode := exitCode w |}.

Definition writeFileSync (r : Report) : M unit :=
  fun w => Returned tt {| results := results w; stdout := stdout w; stderr := stderr w;
                          reportFile := Some r; exitCode := exitCode w |}.

Definition process_exit (c : Z) : M unit :=
  fun w => Returned tt {| results := results w; stdout := stdout w; stderr := stderr w;
                          reportFile := reportFile w; exitCode := Some c |}.

(** [if (c) { m }]. *)
Definition when (c : bool) (m : M unit) : M unit := if c then m else ret tt.

(** [xs.forEach(f)] and [xs.forEach((x, index) => ...)]. *)
Fixpoint forEach {A} (xs : list A) (f : A -> M unit) : M unit :=
  match xs with
  | [] => ret tt
  | x :: xs' => f x ;; forEach xs' f
  end.

Fixpoint forEach_from {A} (index : nat) (xs : list A) (f : A -> nat -> M unit) : M unit :=
  match xs with
  | [] => ret tt
  | x :: xs' => f x index ;; forEach_from (S index) xs' f
  end.

Definition forEach_indexed {A} (xs : list A) (f : A -> nat -> M unit) : M unit :=
  forEach_from 0 xs f.

(** [this.results.recommendations.push(rec)]. *)
Definition push (rec : Recommendation) : M unit :=
  update (fun r => {| fileAnalysis := fileAnalysis r; cssAnalysis := cssAnalysis r;
                      jsAnalysis := jsAnalysis r; assetAnalysis := assetAnalysis r;
                      recommendations := recommendations r ++ [rec] |}).

(** The template literals of the program. *)
Definition template (parts : list string) : string := String.concat "" parts.

(** A line feed at the head of a logged text. *)
Definition nl : string := String JsString.LF EmptyString.

(** ** [class PerformanceTestRunner] *)

Module PerformanceTestRunner.

Import Number RegExp.

(** The three results of the size classifiers. *)
Definition Good : string := "✅ 良好".
Definition Warning : string := "⚠️ 注意".
Definition NeedsImprovement : string := "❌ 改善必要".

(** [constructor()]. *)
Definition constructor : World :=
  {| results := {| fileAnalysis := []; cssAnalysis := None; jsAnalysis := None;
                   assetAnalysis := None; recommendations := [] |};
     stdout := []; stderr := []; reportFile := None; exitCode := None |}.

Definition file_limits : JsObject.t Q :=
  [ ("index.html", 100%Q);
    ("styles.css", 50%Q);
    ("integration-test.html", 150%Q);
    ("test-responsive.html", 30%Q) ].

(** [const limit = limits[filename] || 50], as the number the comparisons
    see. *)
Definition fileLimit (filename : string) : number :=
  JsObject.to_number (JsObject.or_default (JsObject.get file_limits filename) 50%Q).

Definition evaluateFileSize (filename : string) (sizeKB : Q) : string :=
  let limit := fileLimit filename in
  if le sizeKB limit then Good
  else if le sizeKB (times limit 1.5%Q) then Warning
  else NeedsImprovement.

Definition set_fileAnalysis (file : string) (e : FileSize.entry) : M unit :=
  update (fun r => {| fileAnalysis := JsObject.set (fileAnalysis r) file e;
                      cssAnalysis := cssAnalysis r; jsAnalysis := jsAnalysis r;
                      assetAnalysis := assetAnalysis r;
                      recommendations := recommendations r |}).

Definition analyzeFileSizes (env : Fs.Env) : M unit :=
  console_log "📊 ファイルサイズ分析中..." ;;
  let files := [ "index.html"; "styles.css"; "integration-test.html"; "test-responsive.html" ] in
  forEach files (fun file =>
    match Fs.file env file with
    | Some stats =>
        let sizeKB := kilobytes (Fs.size stats) in
        let entry := {| FileSize.size := sizeKB;
                        FileSize.status := evaluateFileSize file sizeKB |} in
        set_fileAnalysis file entry ;;
        console_log (template ["  "; file; ": "; toString sizeKB; "KB - "; FileSize.status entry])
    | None => ret tt
    end).

(** The regular expressions of the stylesheet analysis, all with the [g]
    flag only. *)
Definition re_rule : regex :=                            (* /\{[^}]*\}/ *)
  Cat [Chr "{"; Star true (AnyBut "}"); Chr "}"].
Definition re_media : regex :=                           (* /@media[^{]*\{/ *)
  Cat [Lit "@media"; Star true (AnyBut "{"); Chr "{"].
Definition re_keyframes : regex :=                       (* /@keyframes[^{]*\{/ *)
  Cat [Lit "@keyframes"; Star true (AnyBut "{"); Chr "{"].
Definition re_will_change : regex :=                     (* /will-change\s*:/ *)
  Cat [Lit "will-change"; Star true WhiteSpace; Chr ":"].
Definition re_transform : regex :=                       (* /transform\s*:/ *)
  Cat [Lit "transform"; Star true WhiteSpace; Chr ":"].
Definition re_animation : regex :=                       (* /animation\s*:/ *)
  Cat [Lit "animation"; Star true WhiteSpace; Chr ":"].
Definition re_transition : regex :=                      (* /transition\s*:/ *)
  Cat [Lit "transition"; Star true WhiteSpace; Chr ":"].
Definition re_complex : regex :=            (* /[^{]*\s+[^{]*\s+[^{]*\s+[^{]*\{/ *)
  Cat [Star true (AnyBut "{"); Plus WhiteSpace;
       Star true (AnyBut "{"); Plus WhiteSpace;
       Star true (AnyBut "{"); Plus WhiteSpace;
       Star true (AnyBut "{"); Chr "{"].
Definition re_important : regex :=                       (* /!important/ *)
  Lit "!important".

(** [(text.match(/r/g) || []).length]. *)
Definition occurrences (r : regex) (text : string) : nat :=
  List.length (or_empty (match_g false r text)).

(** The object [analysis] that [analyzeCSSPerformance] builds from the text
    of the stylesheet. *)
Definition cssMetrics (cssContent : string) : Css.analysis :=
  {| Css.totalLines := List.length (JsString.split JsString.LF cssContent);
     Css.totalRules := occurrences re_rule cssContent;
     Css.mediaQueries := occurrences re_media cssContent;
     Css.keyframes := occurrences re_keyframes cssContent;
     Css.willChangeUsage := occurrences re_will_change cssContent;
     Css.transformUsage := occurrences re_transform cssContent;
     Css.animationUsage := occurrences re_animation cssContent;
     Css.transitionUsage := occurrences re_transition cssContent;
     Css.complexSelectors := occurrences re_complex cssContent;
     Css.importantUsage := occurrences re_important cssContent |}.

Definition evaluateCSSPerformance (analysis : Css.analysis) : M unit :=
  when (Css.willChangeUsage analysis <? Css.animationUsage analysis)
    (push {| type := "CSS"; priority := "high";
             message := "アニメーション要素にwill-changeプロパティの追加を推奨" |}) ;;
  when (10 <? Css.complexSelectors analysis)
    (push {| type := "CSS"; priority := "medium";
             message := "複雑なセレクタが多数検出されました。シンプルなセレクタの使用を推奨" |}) ;;
  when (5 <? Css.importantUsage analysis)
    (push {| type := "CSS"; priority := "medium";
             message := "!importantの使用が多数検出されました。CSS設計の見直しを推奨" |}) ;;
  when (500 <? Css.totalRules analysis)
    (push {| type := "CSS"; priority := "low";
             message := "CSSルール数が多いです。未使用CSSの削除を検討してください" |}).

Definition set_cssAnalysis (a : Css.analysis) : M unit :=
  update (fun r => {| fileAnalysis := fileAnalysis r; cssAnalysis := Some a;
                      jsAnalysis := jsAnalysis r; assetAnalysis := assetAnalysis r;
                      recommendations := recommendations r |}).

Definition analyzeCSSPerformance (env : Fs.Env) : M unit :=
  console_log "🎨 CSS パフォーマンス分析中..." ;;
  match Fs.file env "styles.css" with
  | None => console_log "  styles.css が見つかりません"
  | Some f =>
      let cssContent := Fs.content f in
      let analysis := cssMetrics cssContent in
      set_cssAnalysis analysis ;;
      console_log (template ["  総行数: "; JsString.of_nat (Css.totalLines analysis)]) ;;
      console_log (template ["  CSSルール数: "; JsString.of_nat (Css.totalRules analysis)]) ;;
      console_log (template ["  メディアクエリ数: "; JsString.of_nat (Css.mediaQueries analysis)]) ;;
      console_log (template ["  キーフレーム数: "; JsString.of_nat (Css.keyframes analysis)]) ;;
      console_log (template ["  will-change使用: "; JsString.of_nat (Css.willChangeUsage analysis); "箇所"]) ;;
      console_log (template ["  transform使用: "; JsString.of_nat (Css.transformUsage analysis); "箇所"]) ;;
      console_log (template ["  animation使用: "; JsString.of_nat (Css.animationUsage analysis); "箇所"]) ;;
      console_log (template ["  transition使用: "; JsString.of_nat (Css.transitionUsage analysis); "箇所"]) ;;
      console_log (template ["  複雑なセレクタ: "; JsString.of_nat (Css.complexSelectors analysis); "箇所"]) ;;
      console_log (template ["  !important使用: "; JsString.of_nat (Css.importantUsage analysis); "箇所"]) ;;
      evaluateCSSPerformance analysis
  end.

(** The regular expressions of the script analysis.  The first two have the
    flags [gi], the others [g]. *)
Definition re_script : regex :=               (* /<script[^>]*>([\s\S]*?)<\/script>/ *)
  Cat [Lit "<script"; Star true (AnyBut ">"); Chr ">"; Star false Anything; Lit "</script>"].
Definition re_script_tag : regex :=           (* /<\/?script[^>]*>/ *)
  Cat [Chr "<"; Opt (Chr "/"); Lit "script"; Star true (AnyBut ">"); Chr ">"].
Definition re_addEventListener : regex := Lit "addEventListener".
Definition re_setTimeout : regex := Lit "setTimeout".
Definition re_setInterval : regex := Lit "setInterval".
Definition re_requestAnimationFrame : regex := Lit "requestAnimationFrame".
Definition re_dom_query : regex :=            (* /querySelector|getElementById|getElementsBy/ *)
  Alt (Lit "querySelector") (Alt (Lit "getElementById") (Lit "getElementsBy")).

(** [htmlContent.match(/<script.../gi) || []]. *)
Definition scriptMatches (htmlContent : string) : list string :=
  or_empty (match_g true re_script htmlContent).

(** The counters of the loop over the script blocks. *)
Record counters : Type := {
  totalJSLines : nat;
  eventListeners : nat;
  setTimeoutUsage : nat;
  setIntervalUsage : nat;
  animationFrameUsage : nat;
  domQueries : nat
}.

Definition count_script (c : counters) (script : string) : counters :=
  let scriptContent := remove_g true re_script_tag script in
  {| totalJSLines := totalJSLines c + List.length (JsString.split JsString.LF scriptContent);
     eventListeners := eventListeners c + occurrences re_addEventListener scriptContent;
     setTimeoutUsage := setTimeoutUsage c + occurrences re_setTimeout scriptContent;
     setIntervalUsage := setIntervalUsage c + occurrences re_setInterval scriptContent;
     animationFrameUsage := animationFrameUsage c + occurrences re_requestAnimationFrame scriptContent;
     domQueries := domQueries c + occurrences re_dom_query scriptContent |}.

(** The object [analysis] that [analyzeJSPerformance] builds from the text
    of the page. *)
Definition jsMetrics (htmlContent : string) : Js.analysis :=
  let scriptMatches := scriptMatches htmlContent in
  let c := fold_left count_script scriptMatches
             {| totalJSLines := 0; eventListeners := 0; setTimeoutUsage := 0;
                setIntervalUsage := 0; animationFrameUsage := 0; domQueries := 0 |} in
  {| Js.totalLines := totalJSLines c;
     Js.eventListeners := eventListeners c;
     Js.setTimeoutUsage := setTimeoutUsage c;
     Js.setIntervalUsage := setIntervalUsage c;
     Js.animationFrameUsage := animationFrameUsage c;
     Js.domQueries := domQueries c;
     Js.scriptTags := List.length scriptMatches |}.

Definition evaluateJSPerformance (analysis : Js.analysis) : M unit :=
  when ((Js.animationFrameUsage analysis =? 0) && (0 <? Js.setTimeoutUsage analysis))
    (push {| type := "JavaScript"; priority := "high";
             message := "アニメーションにはsetTimeoutではなくrequestAnimationFrameの使用を推奨" |}) ;;
  when (0 <? Js.setIntervalUsage analysis)
    (push {| type := "JavaScript"; priority := "medium";
             message := "setIntervalの使用が検出されました。パフォーマンスへの影響を確認してください" |}) ;;
  when (20 <? Js.domQueries analysis)
    (push {| type := "JavaScript"; priority := "medium";
             message := "DOM クエリが多数検出されました。要素の再利用を検討してください" |}) ;;
  when (1000 <? Js.totalLines analysis)
    (push {| type := "JavaScript"; priority := "low";
             message := "JavaScript コードが大きいです。外部ファイルへの分離を検討してください" |}).

Definition set_jsAnalysis (a : Js.analysis) : M unit :=
  update (fun r => {| fileAnalysis := fileAnalysis r; cssAnalysis := cssAnalysis r;
                      jsAnalysis := Some a; assetAnalysis := assetAnalysis r;
                      recommendations := recommendations r |}).

Definition analyzeJSPerformance (env : Fs.Env) : M unit :=
  console_log "⚡ JavaScript パフォーマンス分析中..." ;;
  match Fs.file env "index.html" with
  | None => console_log "  index.html が見つかりません"
  | Some f =>
      let htmlContent := Fs.content f in
      let analysis := jsMetrics htmlContent in
      set_jsAnalysis analysis ;;
      console_log (template ["  JavaScript総行数: "; JsString.of_nat (Js.totalLines analysis)]) ;;
      console_log (template ["  スクリプトタグ数: "; JsString.of_nat (Js.scriptTags analysis)]) ;;
      console_log (template ["  イベントリスナー: "; JsString.of_nat (Js.eventListeners analysis); "箇所"]) ;;
      console_log (template ["  setTimeout使用: "; JsString.of_nat (Js.setTimeoutUsage analysis); "箇所"]) ;;
      console_log (template ["  setInterval使用: "; JsString.of_nat (Js.setIntervalUsage analysis); "箇所"]) ;;
      console_log (template ["  requestAnimationFrame使用: "; JsString.of_nat (Js.animationFrameUsage analysis); "箇所"]) ;;
      console_log (template ["  DOM クエリ: "; JsString.of_nat (Js.domQueries analysis); "箇所"]) ;;
      evaluateJSPerformance analysis
  end.

Definition asset_limits : JsObject.t Q :=
  [ (".gif", 2000%Q);
    (".png", 500%Q);
    (".jpg", 300%Q);
    (".jpeg", 300%Q);
    (".webp", 200%Q) ].

(** [const limit = limits[ext] || 500], as the number the comparisons see. *)
Definition assetLimit (ext : string) : number :=
  JsObject.to_number (JsObject.or_default (JsObject.get asset_limits ext) 500%Q).

Definition evaluateAssetSize (filename : string) (sizeKB : Q) : string :=
  let ext := JsString.toLowerCase (path.extname filename) in
  let limit := assetLimit ext in
  if le sizeKB limit then Good
  else if le sizeKB (times limit 1.5%Q) then Warning
  else NeedsImprovement.

Definition evaluateAssetPerformance : M unit :=
  r <- this_results ;;
  match assetAnalysis r with
  | None =>
      (* On the [{}] of the constructor [analysis.totalSize > 5000] is
         false and [Object.entries(undefined)] throws a TypeError. *)
      throw "Cannot convert undefined or null to object"
  | Some analysis =>
      when (negb (Qle_bool (Asset.totalSize analysis) 5000%Q))
        (push {| type := "Assets"; priority := "high";
                 message := "アセットの総サイズが大きいです。画像の最適化を推奨" |}) ;;
      forEach (JsObject.entries (Asset.details analysis)) (fun '(filename, details) =>
        when (String.eqb (Asset.status details) "❌ 改善必要")
          (push {| type := "Assets"; priority := "medium";
                   message := template [filename; " のサイズが大きいです (";
                                        toString (Asset.size details); "KB)"] |})) ;;
      let hasWebP :=
        existsb (fun filename =>
                   String.eqb (JsString.toLowerCase (path.extname filename)) ".webp")
                (JsObject.keys (Asset.details analysis)) in
      when (negb hasWebP && (0 <? Asset.totalAssets analysis))
        (push {| type := "Assets"; priority := "low";
                 message := "WebP形式の画像使用を検討してください（ファイルサイズ削減）" |})
  end.

Definition set_assetAnalysis (a : Asset.analysis) : M unit :=
  update (fun r => {| fileAnalysis := fileAnalysis r; cssAnalysis := cssAnalysis r;
                      jsAnalysis := jsAnalysis r; assetAnalysis := Some a;
                      recommendations := recommendations r |}).

(** The loop of [analyzeAssets] over the listing: the running [totalSize],
    the object [assetDetails] and one console line for each asset. *)
Fixpoint each_asset (assets : list (string * N)) (totalSize : Q)
         (assetDetails : JsObject.t Asset.detail) : M (Q * JsObject.t Asset.detail) :=
  match assets with
  | [] => ret (totalSize, assetDetails)
  | (asset, bytes) :: rest =>
      let sizeKB := kilobytes bytes in
      let totalSize := (totalSize + sizeKB)%Q in
      let detail := {| Asset.size := sizeKB;
                       Asset.type := JsString.toLowerCase (path.extname asset);
                       Asset.status := evaluateAssetSize asset sizeKB |} in
      let assetDetails := JsObject.set assetDetails asset detail in
      console_log (template ["  "; asset; ": "; toString sizeKB; "KB - "; Asset.status detail]) ;;
      each_asset rest totalSize assetDetails
  end.

Definition analyzeAssets (env : Fs.Env) : M unit :=
  console_log "🖼️ アセット分析中..." ;;
  match Fs.assets env with
  | None => console_log "  assets ディレクトリが見つかりません"
  | Some assets =>
      acc <- each_asset assets 0%Q [] ;;
      let '(totalSize, assetDetails) := acc in
      let analysis := {| Asset.totalAssets := List.length assets;
                         Asset.totalSize := round2 totalSize;
                         Asset.details := assetDetails |} in
      set_assetAnalysis analysis ;;
      console_log (template ["  総アセット数: "; JsString.of_nat (List.length assets)]) ;;
      console_log (template ["  総サイズ: "; toString (Asset.totalSize analysis); "KB"]) ;;
      evaluateAssetPerformance
  end.

(** The body of the [switch] on [rec.priority] in the score loop. *)
Definition deduct (score : Z) (rec : Recommendation) : Z :=
  if String.eqb (priority rec) "high" then (score - 15)%Z
  else if String.eqb (priority rec) "medium" then (score - 10)%Z
  else if String.eqb (priority rec) "low" then (score - 5)%Z
  else score.

(** The score [generateReport] computes: from 100 down, not below 0. *)
Definition computeScore (recs : list Recommendation) : Z :=
  Z.max 0 (fold_left deduct recs 100%Z).

(** The four lines that tell the band of a score. *)
Module Band.
Definition Excellent : string := "   ✅ 優秀 - パフォーマンスは非常に良好です".
Definition Good : string := "   ⚠️ 良好 - 軽微な改善の余地があります".
Definition Caution : string := "   ⚠️ 注意 - パフォーマンス改善が必要です".
Definition NeedsWork : string := "   ❌ 要改善 - 重要なパフォーマンス問題があります".
End Band.

Definition band (score : Z) : string :=
  if (90 <=? score)%Z then Band.Excellent
  else if (70 <=? score)%Z then Band.Good
  else if (50 <=? score)%Z then Band.Caution
  else Band.NeedsWork.

(** [recommendations.filter(r => r.priority === priority)]. *)
Definition with_priority (p : string) (recs : list Recommendation) : list Recommendation :=
  filter (fun r => String.eqb (priority r) p) recs.

(** The block of [generateReport] that prints the recommendations. *)
Definition printRecommendations (recommendations : list Recommendation) : M unit :=
  if 0 <? List.length recommendations then
    console_log (nl ++ "🔧 改善推奨事項:")%string ;;
    let priorityOrder := ["high"; "medium"; "low"] in
    forEach priorityOrder (fun priority =>
      let recs := with_priority priority recommendations in
      when (0 <? List.length recs)
        (console_log (template [nl; "  "; JsString.toUpperCase priority; " 優先度:"]) ;;
         forEach_indexed recs (fun rec index =>
           console_log (template ["    "; JsString.of_nat (index + 1); ". [";
                                  type rec; "] "; message rec]))))
  else
    console_log (nl ++ "✅ 改善推奨事項はありません")%string.

(** [x || 'N/A'] in a template: [undefined] and [0] print as [N/A]. *)
Definition or_NA {A} (x : option A) (is_zero : A -> bool) (show : A -> string) : string :=
  match x with
  | Some v => if is_zero v then "N/A" else show v
  | None => "N/A"
  end.

Definition saveJSONReport (env : Fs.Env) (score : Z) : M unit :=
  r <- this_results ;;
  let report :=
    {| timestamp := Fs.now env;
       score := score;
       summary :=
         {| totalFiles := List.length (JsObject.keys (fileAnalysis r));
            totalRecommendations := List.length (recommendations r);
            highPriorityIssues := List.length (with_priority "high" (recommendations r));
            mediumPriorityIssues := List.length (with_priority "medium" (recommendations r));
            lowPriorityIssues := List.length (with_priority "low" (recommendations r)) |};
       report_details := r |} in
  let reportPath := "performance-report.json" in
  writeFileSync report ;;
  console_log (template [nl; "💾 詳細レポートを "; reportPath; " に保存しました"]).

Definition generateReport (env : Fs.Env) : M unit :=
  console_log (nl ++ "📋 パフォーマンステストレポート")%string ;;
  console_log (JsString.repeat "=" 50) ;;
  r <- this_results ;;
  let score := computeScore (recommendations r) in
  console_log (template [nl; "🎯 総合パフォーマンススコア: "; JsString.of_Z score; "/100"]) ;;
  console_log (band score) ;;
  printRecommendations (recommendations r) ;;
  console_log (nl ++ "📊 詳細統計:")%string ;;
  console_log (template ["  ファイル分析: ";
                         JsString.of_nat (List.length (JsObject.keys (fileAnalysis r)));
                         "ファイル"]) ;;
  console_log (template ["  CSS ルール数: ";
                         or_NA (option_map Css.totalRules (cssAnalysis r))
                               (Nat.eqb 0) JsString.of_nat]) ;;
  console_log (template ["  JavaScript 行数: ";
                         or_NA (option_map Js.totalLines (jsAnalysis r))
                               (Nat.eqb 0) JsString.of_nat]) ;;
  console_log (template ["  アセット総サイズ: ";
                         or_NA (option_map Asset.totalSize (assetAnalysis r))
                               (fun q => Qeq_bool q 0) toString;
                         "KB"]) ;;
  saveJSONReport env score.

(** [try { body } catch (error) { handler(error.message) }]. *)
Definition try_catch (body : M unit) (handler : string -> M unit) : M unit :=
  fun w => match body w with
           | Returned a w' => Returned a w'
           | Thrown e w' => handler e w'
           end.

Definition run (env : Fs.Env) : M unit :=
  console_log ("🚀 UI Animation Enhancement - パフォーマンステスト開始" ++ nl)%string ;;
  try_catch
    (analyzeFileSizes env ;;
     console_log "" ;;
     analyzeCSSPerformance env ;;
     console_log "" ;;
     analyzeJSPerformance env ;;
     console_log "" ;;
     analyzeAssets env ;;
     console_log "" ;;
     generateReport env ;;
     console_log (nl ++ "✅ パフォーマンステスト完了")%string)
    (fun error_message =>
       console_error (template ["❌ テスト実行中にエラーが発生しました:"; " "; error_message]) ;;
       process_exit 1).

End PerformanceTestRunner.

Import PerformanceTestRunner.

(** * The vocabulary of the properties *)

(** ** Worlds *)

(** The world after some more console lines, and after some more
    recommendations. *)
Definition logged (w : World) (lines : list string) : World :=
  {| results := results w; stdout := stdout w ++ lines; stderr := stderr w;
     reportFile := reportFile w; exitCode := exitCode w |}.

Definition pushed (w : World) (recs : list Recommendation) : World :=
  {| results := {| fileAnalysis := fileAnalysis (results w);
                   cssAnalysis := cssAnalysis (results w);
                   jsAnalysis := jsAnalysis (results w);
                   assetAnalysis := assetAnalysis (results w);
                   recommendations := recommendations (results w) ++ recs |};
     stdout := stdout w; stderr := stderr w;
     reportFile := reportFile w; exitCode := exitCode w |}.

(** The world an outcome leaves, returned or thrown. *)
Definition world_of {A} (o : outcome A) : World :=
  match o with Returned _ w => w | Thrown _ w => w end.

(** The world after [this.results.assetAnalysis = a]. *)
Definition inventoried (w : World) (a : Asset.analysis) : World :=
  {| results := {| fileAnalysis := fileAnalysis (results w);
                   cssAnalysis := cssAnalysis (results w);
                   jsAnalysis := jsAnalysis (results w);
                   assetAnalysis := Some a;
                   recommendations := recommendations (results w) |};
     stdout := stdout w; stderr := stderr w;
     reportFile := reportFile w; exitCode := exitCode w |}.

(** The world after [performance-report.json] was written. *)
Definition reported (w : World) (r : Report) : World :=
  {| results := results w; stdout := stdout w; stderr := stderr w;
     reportFile := Some r; exitCode := exitCode w |}.

(** ** Extensions and size classifiers *)

(** The dot found so far is a dot of the path and lies before the end of
    the last component. *)
Definition dot_found (chars : list ascii) (st : path.scan_state) : Prop :=
  (path.startDot st = -1 \/
   (0 <= path.startDot st
    /\ nth_error chars (Z.to_nat (path.startDot st)) = Some "."%char
    /\ path.startDot st < path.end_ st))%Z.

(** The three-way rule both classifiers end with, on a limit that is a
    number. *)
Definition rule (limit : Number.number) (sizeKB : Q) : string :=
  if Number.le sizeKB limit then Good
  else if Number.le sizeKB (Number.times limit 1.5%Q) then Warning
  else NeedsImprovement.

(** ** The presentation of the recommendations *)

(** The title of the block and the line that opens the group of a priority. *)
Definition recommendations_title : string := (nl ++ "🔧 改善推奨事項:")%string.

Definition group_header (p : string) : string :=
  template [nl; "  "; JsString.toUpperCase p; " 優先度:"].

(** The line of one recommendation under its number. *)
Definition item_line (number : nat) (rec : Recommendation) : string :=
  template ["    "; JsString.of_nat number; ". ["; type rec; "] "; message rec].

(** A list with the numbers 1, 2, ... attached in order. *)
Definition numbered {A} (xs : list A) : list (nat * A) :=
  combine (seq 1 (List.length xs)) xs.

(** The lines of the group of priority [p]: nothing when no recommendation
    has it, else the header and the recommendations of that priority in
    the order of the list, numbered from 1. *)
Definition group_lines (p : string) (recs : list Recommendation) : list string :=
  match with_priority p recs with
  | [] => []
  | rs => group_header p :: map (fun e => item_line (fst e) (snd e)) (numbered rs)
  end.

(** What [printRecommendations] prints: a single line when there is no
    recommendation, else the title and the three groups. *)
Definition recommendation_lines (recs : list Recommendation) : list string :=
  match recs with
  | [] => [(nl ++ "✅ 改善推奨事項はありません")%string]
  | _ => recommendations_title
           :: group_lines "high" recs ++ group_lines "medium" recs ++ group_lines "low" recs
  end.

(** ** The score *)

(** How many recommendations of a list have priority [p]. *)
Definition count (p : string) (recs : list Recommendation) : Z :=
  Z.of_nat (List.length (with_priority p recs)).

(** A recommendation of priority [p]. *)
Definition sample (p : string) : Recommendation :=
  {| type := "CSS"; priority := p; message := "" |}.

(** ** Scripts and stylesheets *)

(** Metrics that are all zero, and the inventory of an empty directory. *)
Definition no_metrics : Js.analysis :=
  {| Js.totalLines := 0; Js.eventListeners := 0; Js.setTimeoutUsage := 0;
     Js.setIntervalUsage := 0; Js.animationFrameUsage := 0; Js.domQueries := 0;
     Js.scriptTags := 0 |}.

Definition no_css_metrics : Css.analysis :=
  {| Css.totalLines := 0; Css.totalRules := 0; Css.mediaQueries := 0; Css.keyframes := 0;
     Css.willChangeUsage := 0; Css.transformUsage := 0; Css.animationUsage := 0;
     Css.transitionUsage := 0; Css.complexSelectors := 0; Css.importantUsage := 0 |}.

Definition no_assets : Asset.analysis :=
  {| Asset.totalAssets := 0; Asset.totalSize := 0%Q; Asset.details := [] |}.

(** The markup with two timers. *)
Definition two_timeouts : string :=
  "<script>setTimeout(f,1);setTimeout(g,2);</script>".

(** Rule 5: [requestAnimationFrame] rather than [setTimeout]. *)
Definition timeout_recommendation : Recommendation :=
  {| type := "JavaScript"; priority := "high";
     message := "アニメーションにはsetTimeoutではなくrequestAnimationFrameの使用を推奨" |}.

(** A text starts with a prefix, and a needle occurs in a text, under the
    comparison of characters the matcher uses. *)
Fixpoint starts_with (ignoreCase : bool) (prefix s : string) : bool :=
  match prefix, s with
  | EmptyString, _ => true
  | String p prefix', String c s' =>
      Ascii.eqb (RegExp.canon ignoreCase c) (RegExp.canon ignoreCase p)
      && starts_with ignoreCase prefix' s'
  | String _ _, EmptyString => false
  end.

Fixpoint occurs (ignoreCase : bool) (needle s : string) : bool :=
  starts_with ignoreCase needle s
  || match s with
     | EmptyString => false
     | String _ s' => occurs ignoreCase needle s'
     end.

(** The sample stylesheet. *)
Definition sample_css : string :=
  ".a .b .c .d { color:red; } @media (max-width:1px){ } !important !important".

(** ** The asset inventory *)

(** What the three rules of [evaluateAssetPerformance] push for an
    inventory. *)
Definition size_recommendation : Recommendation :=
  {| type := "Assets"; priority := "high";
     message := "アセットの総サイズが大きいです。画像の最適化を推奨" |}.

Definition large_asset_recommendation (entry : string * Asset.detail) : Recommendation :=
  {| type := "Assets"; priority := "medium";
     message := template [fst entry; " のサイズが大きいです (";
                          Number.toString (Asset.size (snd entry)); "KB)"] |}.

Definition webp_recommendation : Recommendation :=
  {| type := "Assets"; priority := "low";
     message := "WebP形式の画像使用を検討してください（ファイルサイズ削減）" |}.

Definition is_webp (filename : string) : bool :=
  String.eqb (JsString.toLowerCase (path.extname filename)) ".webp".

Definition asset_rules (a : Asset.analysis) : list Recommendation :=
  (if negb (Qle_bool (Asset.totalSize a) 5000) then [size_recommendation] else [])
  ++ flat_map (fun entry => if String.eqb (Asset.status (snd entry)) NeedsImprovement
                            then [large_asset_recommendation entry] else [])
              (JsObject.entries (Asset.details a))
  ++ (if negb (existsb is_webp (JsObject.keys (Asset.details a)))
         && (0 <? Asset.totalAssets a)
      then [webp_recommendation] else []).

(** An inventory of two small images, none of them in the WebP format. *)
Definition small_png : Asset.detail :=
  {| Asset.size := 10%Q; Asset.type := ".png"; Asset.status := Good |}.

Definition two_pngs : Asset.analysis :=
  {| Asset.totalAssets := 2; Asset.totalSize := 20%Q;
     Asset.details := [("a.png", small_png); ("b.PNG", small_png)] |}.

(** The record [analyzeAssets] stores for one asset. *)
Definition detail_of (asset : string * N) : Asset.detail :=
  {| Asset.size := Number.kilobytes (snd asset);
     Asset.type := JsString.toLowerCase (path.extname (fst asset));
     Asset.status := evaluateAssetSize (fst asset) (Number.kilobytes (snd asset)) |}.

(** The inventory [analyzeAssets] builds from a listing. *)
Definition inventory_of (assets : list (string * N)) : Asset.analysis :=
  {| Asset.totalAssets := List.length assets;
     Asset.totalSize :=
       Number.round2
         (fold_left (fun total asset => (total + Number.kilobytes (snd asset))%Q) assets 0%Q);
     Asset.details :=
       fold_left (fun details asset => JsObject.set details (fst asset) (detail_of asset))
                 assets [] |}.

(** The sum of a list of rationals. *)
Fixpoint sum_Q (xs : list Q) : Q :=
  match xs with
  | [] => 0
  | x :: xs' => x + sum_Q xs'
  end.

(** A whole number of hundredths. *)
Definition hundredths (x : Q) : Prop := exists k : Z, (x == inject_Z k / 100)%Q.

(** The total as the specification words it: the exact sizes in KB summed,
    the sum rounded to two decimals once. *)
Definition exact_kilobytes (bytes : N) : Q := inject_Z (Z.of_N bytes) / 1024.

Definition total_rounded_once (assets : list (string * N)) : Q :=
  Number.round2 (sum_Q (map (fun asset => exact_kilobytes (snd asset)) assets)).

(** A file system that holds nothing but a directory of assets. *)
Definition listing (assets : list (string * N)) : Fs.Env :=
  {| Fs.file := fun _ => None; Fs.assets := Some assets; Fs.now := "" |}.

Definition two_small_assets : list (string * N) := [("a.png", 5%N); ("b.png", 5%N)].

(** ** The invariant of a runner *)

Definition known_priority (rec : Recommendation) : Prop :=
  priority rec = "high" \/ priority rec = "medium" \/ priority rec = "low".

Definition counts_add_up (r : Report) : Prop :=
  totalRecommendations (summary r)
  = highPriorityIssues (summary r) + mediumPriorityIssues (summary r)
    + lowPriorityIssues (summary r).

(** The invariant of a runner: its recommendations have one of the three
    priorities, and the report it wrote last, if any, has counts that add
    up. *)
Definition well_formed (w : World) : Prop :=
  Forall known_priority (recommendations (results w)) /\
  (forall r, reportFile w = Some r -> counts_add_up r).

Definition preserves {A} (m : M A) : Prop :=
  forall w, well_formed w -> well_formed (world_of (m w)).

(** The methods of a runner that touch its state, with their arguments. *)
Inductive method : Type :=
| AnalyzeFileSizes (env : Fs.Env)
| AnalyzeCSSPerformance (env : Fs.Env)
| EvaluateCSSPerformance (analysis : Css.analysis)
| AnalyzeJSPerformance (env : Fs.Env)
| EvaluateJSPerformance (analysis : Js.analysis)
| AnalyzeAssets (env : Fs.Env)
| EvaluateAssetPerformance
| GenerateReport (env : Fs.Env)
| SaveJSONReport (env : Fs.Env) (value : Z)
| Run (env : Fs.Env).

Definition call (m : method) : M unit :=
  match m with
  | AnalyzeFileSizes env => analyzeFileSizes env
  | AnalyzeCSSPerformance env => analyzeCSSPerformance env
  | EvaluateCSSPerformance analysis => evaluateCSSPerformance analysis
  | AnalyzeJSPerformance env => analyzeJSPerformance env
  | EvaluateJSPerformance analysis => evaluateJSPerformance analysis
  | AnalyzeAssets env => analyzeAssets env
  | EvaluateAssetPerformance => evaluateAssetPerformance
  | GenerateReport env => generateReport env
  | SaveJSONReport env value => saveJSONReport env value
  | Run env => run env
  end.

(** The worlds a runner can be in: the one its constructor makes, and the
    one any method leaves, whether it returns or throws. *)
Inductive reachable : World -> Prop :=
| reachable_new : reachable constructor
| reachable_call (m : method) (w : World) :
    reachable w -> reachable (world_of (call m w)).

(** A page with two timers, a stylesheet and four assets. *)
Definition sample_site : Fs.Env :=
  {| Fs.file := fun p =>
       if String.eqb p "index.html"
       then Some {| Fs.size := 2048; Fs.content := two_timeouts |}
       else if String.eqb p "styles.css"
       then Some {| Fs.size := 60000; Fs.content := sample_css |}
       else None;
     Fs.assets := Some [("a.png", 800000%N); ("b.WEBP", 5%N); ("12", 5%N);
                        ("c.gif", 5000000%N)];
     Fs.now := "2025-01-01T00:00:00.000Z" |}.

(** ** More about the score and the classifiers *)

(** The place of a verdict on the scale from Good to NeedsImprovement. *)
Definition verdict_rank (verdict : string) : nat :=
  if String.eqb verdict Good then 0
  else if String.eqb verdict Warning then 1
  else 2.

(** ** The rules of the stylesheet and of the script analysis *)

(** What [evaluateCSSPerformance] pushes for the metrics of a stylesheet. *)
Definition css_rules (a : Css.analysis) : list Recommendation :=
  (if Css.willChangeUsage a <? Css.animationUsage a
   then [{| type := "CSS"; priority := "high";
            message := "アニメーション要素にwill-changeプロパティの追加を推奨" |}] else [])
  ++ (if 10 <? Css.complexSelectors a
      then [{| type := "CSS"; priority := "medium";
               message := "複雑なセレクタが多数検出されました。シンプルなセレクタの使用を推奨" |}] else [])
  ++ (if 5 <? Css.importantUsage a
      then [{| type := "CSS"; priority := "medium";
               message := "!importantの使用が多数検出されました。CSS設計の見直しを推奨" |}] else [])
  ++ (if 500 <? Css.totalRules a
      then [{| type := "CSS"; priority := "low";
               message := "CSSルール数が多いです。未使用CSSの削除を検討してください" |}] else []).

(** What [evaluateJSPerformance] pushes for the metrics of the scripts. *)
Definition js_rules (a : Js.analysis) : list Recommendation :=
  (if (Js.animationFrameUsage a =? 0) && (0 <? Js.setTimeoutUsage a)
   then [timeout_recommendation] else [])
  ++ (if 0 <? Js.setIntervalUsage a
      then [{| type := "JavaScript"; priority := "medium";
               message := "setIntervalの使用が検出されました。パフォーマンスへの影響を確認してください" |}] else [])
  ++ (if 20 <? Js.domQueries a
      then [{| type := "JavaScript"; priority := "medium";
               message := "DOM クエリが多数検出されました。要素の再利用を検討してください" |}] else [])
  ++ (if 1000 <? Js.totalLines a
      then [{| type := "JavaScript"; priority := "low";
               message := "JavaScript コードが大きいです。外部ファイルへの分離を検討してください" |}] else []).

(** ** A whole run *)

(** From [w] to [w'] the recommendations grew by [added], and neither the
    error stream nor the exit code changed. *)
Definition advances (w w' : World) (added : list Recommendation) : Prop :=
  recommendations (results w') = recommendations (results w) ++ added /\
  stderr w' = stderr w /\ exitCode w' = exitCode w.

(** What a run pushes: the findings on the stylesheet, on the page and on the
    assets, for what exists of them. *)
Definition css_findings (env : Fs.Env) : list Recommendation :=
  match Fs.file env "styles.css" with
  | Some f => css_rules (cssMetrics (Fs.content f))
  | None => []
  end.

Definition js_findings (env : Fs.Env) : list Recommendation :=
  match Fs.file env "index.html" with
  | Some f => js_rules (jsMetrics (Fs.content f))
  | None => []
  end.

Definition asset_findings (env : Fs.Env) : list Recommendation :=
  match Fs.assets env with
  | Some assets => asset_rules (inventory_of assets)
  | None => []
  end.

Definition run_findings (env : Fs.Env) : list Recommendation :=
  css_findings env ++ js_findings env ++ asset_findings env.

(** The report [generateReport] writes for the results of a runner. *)
Definition report_of (env : Fs.Env) (r : Results) : Report :=
  {| timestamp := Fs.now env;
     score := computeScore (recommendations r);
     summary :=
       {| totalFiles := List.length (JsObject.keys (fileAnalysis r));
          totalRecommendations := List.length (recommendations r);
          highPriorityIssues := List.length (with_priority "high" (recommendations r));
          mediumPriorityIssues := List.length (with_priority "medium" (recommendations r));
          lowPriorityIssues := List.length (with_priority "low" (recommendations r)) |};
     report_details := r |}.

(** The four files [analyzeFileSizes] looks for, and the entry it stores for
    one of them. *)
Definition watched_files : list string :=
  [ "index.html"; "styles.css"; "integration-test.html"; "test-responsive.html" ].

Definition file_entry (file : string) (stats : Fs.File) : FileSize.entry :=
  {| FileSize.size := Number.kilobytes (Fs.size stats);
     FileSize.status := evaluateFileSize file (Number.kilobytes (Fs.size stats)) |}.

(** ** Lines *)

(** How many line feeds a text holds. *)
Fixpoint line_feeds (s : string) : nat :=
  match s with
  | EmptyString => 0
  | String c s' => (if Ascii.eqb c JsString.LF then 1 else 0) + line_feeds s'
  end.

(** ** Thresholds, names and messages *)




(** A name of ASCII characters only, where [toLowerCase] of the model is
    the one of JavaScript. *)
Definition ascii_only (name : string) : bool :=
  forallb (fun c => JsString.code c <? 128) (list_ascii_of_string name).

(** A recommendation of priority medium that names an asset as too large.
    The text between the brackets is the size as JavaScript prints it; it is
    left open here. *)
Definition names_large_asset (rec : Recommendation) (entry : string * Asset.detail) : Prop :=
  type rec = "Assets" /\ priority rec = "medium" /\
  exists size_text : string,
    message rec = template [fst entry; " のサイズが大きいです ("; size_text; "KB)"].

(** An inventory above the total of 5000 KB, with one asset that needs
    improvement and one that does not. *)
Definition heavy_inventory : Asset.analysis :=
  {| Asset.totalAssets := 2; Asset.totalSize := 6010%Q;
     Asset.details :=
       [ ("hero.jpg", {| Asset.size := 6000%Q; Asset.type := ".jpg";
                         Asset.status := NeedsImprovement |});
         ("a.png", small_png) ] |}.

(** The file system of [env] at another time of the clock. *)
Definition later (env : Fs.Env) (time : string) : Fs.Env :=
  {| Fs.file := Fs.file env; Fs.assets := Fs.assets env; Fs.now := time |}.

(** * Properties *)

(** ** What a method does to the world *)

Section Monad.

Lemma bind_returned {A B} (m : M A) (f : A -> M B) (w w' : World) (a : A) :
  m w = Returned a w' -> bind m f w = f a w'.
Proof. intros H. unfold bind. now rewrite H. Qed.

Lemma logged_nil (w : World) : logged w [] = w.
Proof. destruct w. unfold logged. cbn. now rewrite app_nil_r. Qed.

Lemma logged_logged (w : World) (a b : list string) :
  logged (logged w a) b = logged w (a ++ b).
Proof. unfold logged. cbn. now rewrite app_assoc. Qed.

Lemma pushed_nil (w : World) : pushed w [] = w.
Proof. destruct w as [[]]. unfold pushed. cbn. now rewrite app_nil_r. Qed.

Lemma pushed_pushed (w : World) (a b : list Recommendation) :
  pushed (pushed w a) b = pushed w (a ++ b).
Proof. unfold pushed. cbn. now rewrite app_assoc. Qed.

Lemma console_log_logged (line : string) (w : World) :
  console_log line w = Returned tt (logged w [line]).
Proof. reflexivity. Qed.

Lemma push_pushed (rec : Recommendation) (w : World) :
  push rec w = Returned tt (pushed w [rec]).
Proof. reflexivity. Qed.

Lemma when_push (c : bool) (rec : Recommendation) (w : World) :
  when c (push rec) w = Returned tt (pushed w (if c then [rec] else [])).
Proof. destruct c; cbn [when]; [reflexivity | now rewrite pushed_nil]. Qed.

(** A loop whose body only pushes recommendations. *)
Lemma forEach_pushed {A} (f : A -> M unit) (g : A -> list Recommendation) (xs : list A) :
  (forall x w, f x w = Returned tt (pushed w (g x))) ->
  forall w, forEach xs f w = Returned tt (pushed w (flat_map g xs)).
Proof.
  intros Hf.
  induction xs as [|x xs IH]; intros w; cbn [forEach flat_map].
  - unfold ret. now rewrite pushed_nil.
  - erewrite bind_returned by apply Hf.
    now rewrite IH, pushed_pushed.
Qed.

(** A loop whose body prints one line for each element and its index. *)
Lemma forEach_from_log {A} (line : A -> nat -> string) (xs : list A) :
  forall (index : nat) (w : World),
    forEach_from index xs (fun x i => console_log (line x i)) w
    = Returned tt (logged w (map (fun p => line (snd p) (fst p))
                                 (combine (seq index (List.length xs)) xs))).
Proof.
  induction xs as [|x xs IH]; intros index w; cbn [forEach_from List.length seq combine map].
  - unfold ret. now rewrite logged_nil.
  - erewrite bind_returned by apply console_log_logged.
    rewrite IH, logged_logged. reflexivity.
Qed.

End Monad.

(** ** Extensions

    [path.extname] returns the empty string or a text that starts with a dot,
    so the extension of an asset never names a property of
    [Object.prototype]. *)

Section Extname.

Import path.
Local Open Scope Z_scope.

Variable chars : list ascii.

Lemma scan_back_dot_found (rev_chars : list ascii) :
  forall (i : Z) (st : scan_state),
    i = Z.of_nat (List.length rev_chars) - 1 ->
    (forall k c, nth_error rev_chars k = Some c ->
                 nth_error chars (Z.to_nat (i - Z.of_nat k)) = Some c) ->
    dot_found chars st ->
    (end_ st = -1 \/ i < end_ st) ->
    dot_found chars (scan_back rev_chars i st).
Proof.
  induction rev_chars as [|code rest IH]; intros i st Hi Hnth Hst Hend; [exact Hst|].
  cbn [List.length] in Hi.
  assert (Hcode : nth_error chars (Z.to_nat i) = Some code).
  { specialize (Hnth 0%nat code eq_refl). now rewrite Z.sub_0_r in Hnth. }
  assert (Hrest : forall k c, nth_error rest k = Some c ->
                              nth_error chars (Z.to_nat (i - 1 - Z.of_nat k)) = Some c).
  { intros k c Hk. specialize (Hnth (S k) c Hk).
    replace (i - 1 - Z.of_nat k) with (i - Z.of_nat (S k)) by lia. exact Hnth. }
  cbn [scan_back].
  destruct (Ascii.eqb code "/").
  - destruct (negb (matchedSlash st)).
    + destruct Hst as [Hst|(H0 & Hd & He)]; [now left|right]. cbn. auto.
    + apply IH; [lia | exact Hrest | exact Hst | lia].
  - apply IH; [lia | exact Hrest | |].
    + unfold dot_found in *.
      destruct (Ascii.eqb_spec code "."%char) as [->|_];
        destruct (end_ st =? -1) eqn:Ee; cbn [startDot end_ matchedSlash preDotState];
        destruct (startDot st =? -1) eqn:Es; cbn [negb startDot end_];
        try destruct (preDotState st =? 1); cbn [negb startDot end_];
        rewrite ?Z.eqb_eq, ?Z.eqb_neq in *;
        solve [ left; assumption
              | right; repeat split; solve [lia | exact Hcode]
              | destruct Hst as [Hst|(H0 & Hd & He)];
                [contradiction | right; repeat split; solve [lia | exact Hd]] ].
    + destruct (end_ st =? -1) eqn:Ee; rewrite ?Z.eqb_eq, ?Z.eqb_neq in *; right;
        destruct (Ascii.eqb code "."); cbn [startDot end_ matchedSlash preDotState];
        repeat match goal with
               | |- context [if ?b then _ else _] =>
                   destruct b; cbn [startDot end_ matchedSlash preDotState]
               end; lia.
Qed.

End Extname.

Lemma length_list_ascii_of_string (s : string) :
  List.length (list_ascii_of_string s) = String.length s.
Proof. induction s as [|c s IH]; cbn; [reflexivity | now rewrite IH]. Qed.

Lemma substring_head (s : string) :
  forall (n m : nat) (c : ascii),
    nth_error (list_ascii_of_string s) n = Some c -> (0 < m)%nat ->
    exists r, substring n m s = String c r.
Proof.
  induction s as [|a s IH]; intros n m c Hn Hm.
  - destruct n; discriminate.
  - destruct n as [|n].
    + cbn in Hn. inversion Hn; subst. destruct m as [|m]; [lia|].
      cbn. eauto.
    + cbn in Hn. cbn. now apply IH.
Qed.

Lemma extname_shape (p : string) :
  path.extname p = EmptyString \/ exists r, path.extname p = String "." r.
Proof.
  unfold path.extname.
  set (chars := list_ascii_of_string p).
  set (st := path.scan_back _ _ _).
  assert (Hlen : List.length chars = String.length p)
    by apply length_list_ascii_of_string.
  assert (Hst : dot_found chars st).
  { apply scan_back_dot_found.
    - now rewrite length_rev, Hlen.
    - intros k c Hk.
      assert (Hlt : (k < List.length chars)%nat).
      { rewrite <- length_rev. apply nth_error_Some. now rewrite Hk. }
      rewrite nth_error_rev in Hk.
      apply Nat.ltb_lt in Hlt as Hb. rewrite Hb in Hk.
      rewrite <- Hk. f_equal. lia.
    - now left.
    - now left. }
  destruct (path.startDot st =? -1)%Z eqn:Es; [now left|].
  match goal with |- context [if ?b then _ else _] => destruct b end; [now left|].
  right. apply Z.eqb_neq in Es.
  destruct Hst as [Hst|(H0 & Hd & He)]; [contradiction|].
  apply substring_head with (m := Z.to_nat (path.end_ st - path.startDot st)) in Hd; [exact Hd | lia].
Qed.

(** The lower-cased extension of a name is no property of [Object.prototype]. *)
Lemma extension_not_inherited (filename : string) :
  JsObject.inherited (JsString.toLowerCase (path.extname filename)) = false.
Proof.
  destruct (extname_shape filename) as [E|[r E]]; rewrite E; reflexivity.
Qed.

(** ** The size classifiers *)

Section SizeClassifier.

Import Number.
Local Open Scope Q_scope.

Lemma evaluateFileSize_rule (filename : string) (sizeKB : Q) :
  evaluateFileSize filename sizeKB = rule (fileLimit filename) sizeKB.
Proof. reflexivity. Qed.

Lemma evaluateAssetSize_rule (filename : string) (sizeKB : Q) :
  evaluateAssetSize filename sizeKB
  = rule (assetLimit (JsString.toLowerCase (path.extname filename))) sizeKB.
Proof. reflexivity. Qed.

Lemma rule_good (t s : Q) : s <= t -> rule (Some t) s = Good.
Proof.
  intros H. unfold rule, le.
  apply Qle_bool_iff in H. now rewrite H.
Qed.




(** A limit that is Not-a-Number makes both comparisons false. *)
Lemma rule_nan (s : Q) : rule None s = NeedsImprovement.
Proof. reflexivity. Qed.

(** The limits of the per-file classifier: an entry of the table, the
    default, or no number at all for a name that [Object.prototype]
    defines. *)
Lemma fileLimit_cases (filename : string) :
  fileLimit filename = Some 100 \/ fileLimit filename = Some 50 \/
  fileLimit filename = Some 150 \/ fileLimit filename = Some 30 \/
  (fileLimit filename = None /\ JsObject.inherited filename = true).
Proof.
  unfold fileLimit, JsObject.get, file_limits. cbn [JsObject.own].
  destruct (JsObject.inherited filename);
    repeat match goal with
           | |- context [String.eqb filename ?k] => destruct (String.eqb filename k)
           end; cbn; auto 10.
Qed.

Lemma assetLimit_cases (ext : string) :
  assetLimit ext = Some 2000 \/ assetLimit ext = Some 500 \/
  assetLimit ext = Some 300 \/ assetLimit ext = Some 200 \/
  (assetLimit ext = None /\ JsObject.inherited ext = true).
Proof.
  unfold assetLimit, JsObject.get, asset_limits. cbn [JsObject.own].
  destruct (JsObject.inherited ext);
    repeat match goal with
           | |- context [String.eqb ext ?k] => destruct (String.eqb ext k)
           end; cbn; auto 10.
Qed.









(** The asset classifier always compares with a number. *)
Lemma assetLimit_number (filename : string) :
  exists t, assetLimit (JsString.toLowerCase (path.extname filename)) = Some t /\ 0 < t.
Proof.
  pose proof (extension_not_inherited filename) as Hn.
  destruct (assetLimit_cases (JsString.toLowerCase (path.extname filename)))
    as [E|[E|[E|[E|[_ E]]]]]; try (eexists; split; [exact E | reflexivity]).
  rewrite Hn in E. discriminate.
Qed.

(** The per-file classifier does so for every name that [Object.prototype]
    does not define. *)
Lemma fileLimit_number (filename : string) :
  JsObject.inherited filename = false ->
  exists t, fileLimit filename = Some t /\ 0 < t.
Proof.
  intros Hn.
  destruct (fileLimit_cases filename)
    as [E|[E|[E|[E|[_ E]]]]]; try (eexists; split; [exact E | reflexivity]).
  rewrite Hn in E. discriminate.
Qed.

(** A name that [Object.prototype] defines reads as a function of the
    prototype, not as a number: both comparisons are false whatever the size. *)
Lemma inherited_name_has_no_limit (filename : string) (sizeKB : Q) :
  JsObject.own file_limits filename = None ->
  JsObject.inherited filename = true ->
  evaluateFileSize filename sizeKB = NeedsImprovement.
Proof.
  intros Ho Hi. rewrite evaluateFileSize_rule.
  unfold fileLimit, JsObject.get. now rewrite Ho, Hi.
Qed.

(** C3, as the specification states it, fails: a negative size is not
    rejected.  Both classifiers return a verdict for -1. *)
Lemma negative_size_not_rejected :
  -1 < 0 /\
  evaluateFileSize "index.html" (-1) = Good /\
  evaluateAssetSize "photo.png" (-1) = Good.
Proof. repeat split. Qed.

(** C3, amended: the classifiers do not validate their input.  For every
    negative size they return a verdict, and the verdict is Good: for every
    name with the asset classifier, for every name that selects a number
    with the per-file classifier. *)
Theorem negative_size_is_good :
  forall (category : string) (sizeKB : Q),
    sizeKB < 0 ->
    evaluateAssetSize category sizeKB = Good /\
    (JsObject.inherited category = false -> evaluateFileSize category sizeKB = Good).
Proof.
  intros category sizeKB Hneg. split.
  - destruct (assetLimit_number category) as (t & E & Ht).
    rewrite evaluateAssetSize_rule, E. apply rule_good. lra.
  - intros Hn. destruct (fileLimit_number category Hn) as (t & E & Ht).
    rewrite evaluateFileSize_rule, E. apply rule_good. lra.
Qed.

Lemma negative_size_is_good_witness :
  evaluateAssetSize "banner.gif" (-(5 # 2)) = Good /\
  evaluateFileSize "styles.css" (-(5 # 2)) = Good.
Proof.
  destruct (negative_size_is_good "banner.gif" (-(5 # 2))) as [Ha _]; [reflexivity|].
  destruct (negative_size_is_good "styles.css" (-(5 # 2))) as [_ Hf]; [reflexivity|].
  split; [exact Ha | apply Hf; reflexivity].
Defined.

End SizeClassifier.

(** ** The presentation of the recommendations *)

Section Presentation.

Lemma numbered_shift {A} (line : nat -> A -> string) (xs : list A) :
  forall k : nat,
    map (fun e => line (fst e + 1) (snd e)) (combine (seq k (List.length xs)) xs)
    = map (fun e => line (fst e) (snd e)) (combine (seq (S k) (List.length xs)) xs).
Proof.
  induction xs as [|x xs IH]; intros k; cbn [List.length seq combine map fst snd].
  - reflexivity.
  - rewrite IH. f_equal. f_equal. lia.
Qed.

Lemma group_printed (p : string) (recs : list Recommendation) (w : World) :
  when (0 <? List.length (with_priority p recs))
    (console_log (template [nl; "  "; JsString.toUpperCase p; " 優先度:"]) ;;
     forEach_indexed (with_priority p recs) (fun rec index =>
       console_log (template ["    "; JsString.of_nat (index + 1); ". [";
                              type rec; "] "; message rec]))) w
  = Returned tt (logged w (group_lines p recs)).
Proof.
  unfold group_lines.
  destruct (with_priority p recs) as [|r rs] eqn:E.
  - cbn [List.length Nat.ltb Nat.leb when]. unfold ret. now rewrite logged_nil.
  - change (0 <? List.length (r :: rs)) with true. cbn [when].
    erewrite bind_returned by apply console_log_logged.
    unfold forEach_indexed.
    rewrite (forEach_from_log (fun rec index => item_line (index + 1) rec)).
    rewrite logged_logged.
    rewrite (numbered_shift item_line). reflexivity.
Qed.

Lemma printRecommendations_logged (recs : list Recommendation) (w : World) :
  printRecommendations recs w = Returned tt (logged w (recommendation_lines recs)).
Proof.
  destruct recs as [|r recs]; [reflexivity|].
  unfold printRecommendations.
  change (0 <? List.length (r :: recs)) with true. cbv iota.
  erewrite bind_returned by apply console_log_logged.
  cbn [forEach].
  erewrite bind_returned by apply group_printed.
  erewrite bind_returned by apply group_printed.
  erewrite bind_returned by apply group_printed.
  unfold ret. rewrite !logged_logged. reflexivity.
Qed.

(** C8: the printed block lists the recommendations of priority high, then
    those of priority medium, then those of priority low; inside a group
    they keep the order they have in the list and are numbered 1, 2, ...,
    the numbers starting again at 1 in each group. *)
Theorem recommendations_grouped_by_priority :
  forall (recs : list Recommendation) (w : World),
    recs <> [] ->
    printRecommendations recs w
    = Returned tt (logged w (recommendations_title
                               :: group_lines "high" recs
                               ++ group_lines "medium" recs
                               ++ group_lines "low" recs)).
Proof.
  intros recs w Hne. rewrite printRecommendations_logged.
  destruct recs; [contradiction | reflexivity].
Qed.

Lemma recommendations_grouped_by_priority_witness :
  stdout (world_of (printRecommendations
                      [ {| type := "CSS"; priority := "low"; message := "d" |};
                        {| type := "CSS"; priority := "high"; message := "a" |};
                        {| type := "Assets"; priority := "medium"; message := "c" |};
                        {| type := "JavaScript"; priority := "high"; message := "b" |} ]
                      constructor))
  = [ recommendations_title;
      group_header "high"; "    1. [CSS] a"; "    2. [JavaScript] b";
      group_header "medium"; "    1. [Assets] c";
      group_header "low"; "    1. [CSS] d" ].
Proof.
  rewrite recommendations_grouped_by_priority; [reflexivity | discriminate].
Defined.

End Presentation.

(** ** The score *)

Section Score.

Local Open Scope Z_scope.

Lemma fold_deduct (recs : list Recommendation) :
  forall start : Z,
    fold_left deduct recs start
    = start - 15 * count "high" recs - 10 * count "medium" recs - 5 * count "low" recs.
Proof.
  unfold count.
  induction recs as [|r recs IH]; intros start; cbn [fold_left with_priority filter].
  - cbn. lia.
  - rewrite IH. unfold with_priority, deduct.
    destruct (String.eqb_spec (priority r) "high") as [E|_].
    + rewrite E. cbn [String.eqb Ascii.eqb Bool.eqb List.length]. lia.
    + destruct (String.eqb_spec (priority r) "medium") as [E|_].
      * rewrite E. cbn [String.eqb Ascii.eqb Bool.eqb List.length]. lia.
      * destruct (String.eqb_spec (priority r) "low") as [E|_]; cbn [List.length]; lia.
Qed.

Lemma computeScore_formula (recs : list Recommendation) :
  computeScore recs
  = Z.max 0 (100 - 15 * count "high" recs - 10 * count "medium" recs
             - 5 * count "low" recs).
Proof. unfold computeScore. now rewrite fold_deduct. Qed.

Lemma count_nonneg (p : string) (recs : list Recommendation) : 0 <= count p recs.
Proof. unfold count. lia. Qed.

Lemma saveJSONReport_reported (env : Fs.Env) (value : Z) (w : World) :
  exists (r : Report) (line : string),
    saveJSONReport env value w = Returned tt (logged (reported w r) [line]) /\
    score r = value /\
    report_details r = results w /\
    totalRecommendations (summary r) = List.length (recommendations (results w)) /\
    highPriorityIssues (summary r)
    = List.length (with_priority "high" (recommendations (results w))) /\
    mediumPriorityIssues (summary r)
    = List.length (with_priority "medium" (recommendations (results w))) /\
    lowPriorityIssues (summary r)
    = List.length (with_priority "low" (recommendations (results w))).
Proof.
  do 2 eexists. split.
  - unfold saveJSONReport, bind, this_results, writeFileSync, console_log, logged, reported.
    cbv beta iota zeta. cbn [results stdout stderr reportFile exitCode]. reflexivity.
  - cbn. auto 10.
Qed.

(** [generateReport] returns; it prints the line of the band of the score
    it computed and writes that score into the report. *)
Lemma generateReport_reported (env : Fs.Env) (w : World) :
  exists (before after : list string) (r : Report),
    generateReport env w
    = Returned tt (logged (reported w r)
                          (before ++ band (computeScore (recommendations (results w)))
                                  :: recommendation_lines (recommendations (results w))
                                  ++ after)) /\
    score r = computeScore (recommendations (results w)).
Proof.
  unfold generateReport.
  do 2 (erewrite bind_returned by apply console_log_logged).
  erewrite bind_returned by reflexivity.
  do 2 (erewrite bind_returned by apply console_log_logged).
  erewrite bind_returned by apply printRecommendations_logged.
  do 5 (erewrite bind_returned by apply console_log_logged).
  rewrite !logged_logged.
  match goal with
  | |- context [saveJSONReport env ?sc ?w'] =>
      destruct (saveJSONReport_reported env sc w') as (r & line & Hsave & Hscore & _)
  end.
  rewrite Hsave.
  exists [(nl ++ "📋 パフォーマンステストレポート")%string;
          JsString.repeat "=" 50;
          template [nl; "🎯 総合パフォーマンススコア: ";
                    JsString.of_Z (computeScore (recommendations (results w))); "/100"]].
  eexists (_ :: _ :: _ :: _ :: _ :: [line]), r.
  split; [|exact Hscore].
  f_equal. unfold logged, reported. cbn [results stdout stderr reportFile exitCode].
  f_equal. rewrite <- !app_assoc. cbn [app]. reflexivity.
Qed.

(** C4: the score is 100 less 15 for each recommendation of priority high,
    10 for each of priority medium and 5 for each of priority low, and not
    below 0.  No recommendation gives 100 and the band Excellent; two high
    and one medium give 60 and the band Caution; ten high give 0.  The band
    is Excellent from 90, Good from 70, Caution from 50 and NeedsWork below.
    ([generateReport_reported] shows that this score and this band are the
    ones printed and written.) *)
Theorem score_and_band :
  forall (recs : list Recommendation) (s : Z),
    computeScore recs
    = Z.max 0 (100 - 15 * count "high" recs - 10 * count "medium" recs
               - 5 * count "low" recs) /\
    (recs = [] -> computeScore recs = 100 /\ band (computeScore recs) = Band.Excellent) /\
    (count "high" recs = 2 -> count "medium" recs = 1 -> count "low" recs = 0 ->
     computeScore recs = 60 /\ band (computeScore recs) = Band.Caution) /\
    (count "high" recs = 10 -> computeScore recs = 0) /\
    (90 <= s -> band s = Band.Excellent) /\
    (70 <= s -> s < 90 -> band s = Band.Good) /\
    (50 <= s -> s < 70 -> band s = Band.Caution) /\
    (s < 50 -> band s = Band.NeedsWork).
Proof.
  intros recs s. rewrite computeScore_formula.
  pose proof (count_nonneg "medium" recs) as Hm.
  pose proof (count_nonneg "low" recs) as Hl.
  split; [reflexivity|]. repeat apply conj.
  - intros ->. split; reflexivity.
  - intros -> -> ->. split; reflexivity.
  - intros ->. lia.
  - intros H. unfold band. destruct (Z.leb_spec 90 s); [reflexivity | lia].
  - intros H1 H2. unfold band.
    destruct (Z.leb_spec 90 s); [lia|].
    destruct (Z.leb_spec 70 s); [reflexivity | lia].
  - intros H1 H2. unfold band.
    destruct (Z.leb_spec 90 s); [lia|].
    destruct (Z.leb_spec 70 s); [lia|].
    destruct (Z.leb_spec 50 s); [reflexivity | lia].
  - intros H. unfold band.
    destruct (Z.leb_spec 90 s); [lia|].
    destruct (Z.leb_spec 70 s); [lia|].
    destruct (Z.leb_spec 50 s); [lia | reflexivity].
Qed.

Lemma score_and_band_witness :
  computeScore [sample "high"; sample "medium"; sample "high"] = 60 /\
  band (computeScore [sample "high"; sample "medium"; sample "high"]) = Band.Caution /\
  computeScore (List.repeat (sample "high") 10) = 0 /\
  band (computeScore []) = Band.Excellent /\
  band 95 = Band.Excellent /\ band 70 = Band.Good /\
  band 50 = Band.Caution /\ band 49 = Band.NeedsWork.
Proof.
  pose proof (score_and_band [sample "high"; sample "medium"; sample "high"] 95)
    as (_ & _ & H60 & _ & H95 & _).
  pose proof (score_and_band (List.repeat (sample "high") 10) 70)
    as (_ & _ & _ & H0 & _ & H70 & _).
  pose proof (score_and_band [] 50) as (_ & Hnil & _ & _ & _ & _ & H50 & _).
  pose proof (score_and_band [] 49) as (_ & _ & _ & _ & _ & _ & _ & H49).
  destruct (H60 eq_refl eq_refl eq_refl) as [Ha Hb].
  destruct (Hnil eq_refl) as [_ Hc].
  repeat apply conj;
    [ exact Ha | exact Hb | exact (H0 eq_refl) | exact Hc
    | apply H95; lia | apply H70; lia | apply H50; lia | apply H49; lia ].
Defined.

End Score.

(** ** The script analysis *)

Section Scripts.

Import RegExp.

(** C5: on the markup with two calls of [setTimeout] in one script block the
    analysis counts 2 for [setTimeout] and 0 for [requestAnimationFrame];
    the rules of the script analysis then give exactly one recommendation,
    the one of priority high for scripts, and so do the rules of the three
    analyses together when the stylesheet metrics are all zero and the
    inventory is empty. *)
Theorem two_timeouts_one_recommendation :
  Js.setTimeoutUsage (jsMetrics two_timeouts) = 2 /\
  Js.animationFrameUsage (jsMetrics two_timeouts) = 0 /\
  evaluateJSPerformance (jsMetrics two_timeouts) constructor
  = Returned tt (pushed constructor [timeout_recommendation]) /\
  recommendations
    (results (world_of ((set_assetAnalysis no_assets ;;
                         evaluateCSSPerformance no_css_metrics ;;
                         evaluateJSPerformance (jsMetrics two_timeouts) ;;
                         evaluateAssetPerformance) constructor)))
  = [timeout_recommendation].
Proof. repeat apply conj; vm_compute; reflexivity. Qed.

Lemma run_Lit_fails (ignoreCase : bool) (prefix : string) :
  prefix <> EmptyString ->
  forall (s : string) (k : cont),
    starts_with ignoreCase prefix s = false ->
    RegExp.run ignoreCase (Lit prefix) s k = None.
Proof.
  induction prefix as [|p prefix IH]; intros Hne s k Hs; [contradiction|].
  destruct prefix as [|p' prefix'].
  - destruct s as [|c s']; [reflexivity|].
    cbn in Hs |- *. unfold class_matches. cbn.
    destruct (Ascii.eqb (canon ignoreCase c) (canon ignoreCase p)); [discriminate | reflexivity].
  - destruct s as [|c s']; [reflexivity|].
    cbn [starts_with] in Hs.
    change (Lit (String p (String p' prefix')))
      with (Seq (Chr p) (Lit (String p' prefix'))).
    cbn [RegExp.run Chr]. unfold class_matches. cbn [existsb item_matches xorb orb].
    rewrite orb_false_r.
    destruct (Ascii.eqb (canon ignoreCase c) (canon ignoreCase p)); [|reflexivity].
    apply IH; [discriminate | exact Hs].
Qed.

(** A pattern that opens with a literal finds nothing in a text in which the
    literal does not occur. *)
Lemma scan_without_literal (ignoreCase : bool) (prefix : string) (r : regex) :
  prefix <> EmptyString ->
  forall (fuel : nat) (s : string),
    occurs ignoreCase prefix s = false ->
    matches_of (scan ignoreCase (Seq (Lit prefix) r) fuel s) = [].
Proof.
  intros Hne. induction fuel as [|fuel IH]; intros s Hs; [reflexivity|].
  cbn [scan]. unfold match_here. cbn [RegExp.run].
  assert (Hhead : starts_with ignoreCase prefix s = false).
  { destruct s; cbn [occurs] in Hs; now apply orb_false_elim in Hs. }
  rewrite (run_Lit_fails ignoreCase prefix Hne s _ Hhead).
  destruct s as [|c s']; [reflexivity|].
  cbn [matches_of]. apply IH.
  cbn [occurs] in Hs. now apply orb_false_elim in Hs.
Qed.

(** A markup without the text [<script], in any case, has no script block. *)
Lemma no_opening_tag_no_block (html : string) :
  occurs true "<script" html = false -> scriptMatches html = [].
Proof.
  intros Hs. unfold scriptMatches, match_g, pieces.
  change re_script
    with (Seq (Lit "<script")
              (Cat [Star true (AnyBut ">"); Chr ">"; Star false Anything; Lit "</script>"])).
  rewrite scan_without_literal; [reflexivity | discriminate | exact Hs].
Qed.

(** C6: a markup in which no script block is found gives metrics that are
    all zero, the number of blocks included, and the analysis returns
    normally: it records these metrics and recommends nothing. *)
Theorem no_script_blocks_all_zero :
  forall html : string,
    scriptMatches html = [] ->
    jsMetrics html = no_metrics /\
    forall (env : Fs.Env) (f : Fs.File) (w : World),
      Fs.file env "index.html" = Some f -> Fs.content f = html ->
      exists w', analyzeJSPerformance env w = Returned tt w' /\
                 jsAnalysis (results w') = Some no_metrics /\
                 recommendations (results w') = recommendations (results w).
Proof.
  intros html Hnone.
  assert (Hzero : jsMetrics html = no_metrics).
  { unfold jsMetrics. rewrite Hnone. reflexivity. }
  split; [exact Hzero|].
  intros env f w Hf Hc. unfold analyzeJSPerformance.
  erewrite bind_returned by apply console_log_logged.
  rewrite Hf, Hc, Hzero.
  erewrite bind_returned by reflexivity.
  do 7 (erewrite bind_returned by apply console_log_logged).
  eexists. split; [reflexivity|]. split; reflexivity.
Qed.

Lemma no_script_blocks_all_zero_witness :
  jsMetrics "<p>no script here</p>" = no_metrics.
Proof. apply (no_script_blocks_all_zero "<p>no script here</p>"). reflexivity. Defined.

End Scripts.

(** ** The stylesheet analysis *)

Section Stylesheet.

(** C7: on the sample text the analysis finds at least one complex
    selector, one media query and two uses of [!important]. *)
Theorem sample_css_counts :
  1 <= Css.complexSelectors (cssMetrics sample_css) /\
  Css.mediaQueries (cssMetrics sample_css) = 1 /\
  Css.importantUsage (cssMetrics sample_css) = 2.
Proof.
  assert (E : cssMetrics sample_css
              = {| Css.totalLines := 1; Css.totalRules := 2; Css.mediaQueries := 1;
                   Css.keyframes := 0; Css.willChangeUsage := 0; Css.transformUsage := 0;
                   Css.animationUsage := 0; Css.transitionUsage := 0;
                   Css.complexSelectors := 2; Css.importantUsage := 2 |})
    by (vm_compute; reflexivity).
  rewrite E. cbn. repeat split; lia.
Qed.

End Stylesheet.

(** ** The asset inventory *)

Section Assets.

Import Number.

Lemma evaluateAssetPerformance_pushed (w : World) (a : Asset.analysis) :
  assetAnalysis (results w) = Some a ->
  evaluateAssetPerformance w = Returned tt (pushed w (asset_rules a)).
Proof.
  intros Ha. unfold evaluateAssetPerformance.
  erewrite bind_returned by reflexivity.
  rewrite Ha.
  erewrite bind_returned by apply when_push.
  erewrite bind_returned.
  2:{ apply (forEach_pushed _ (fun entry =>
               if String.eqb (Asset.status (snd entry)) NeedsImprovement
               then [large_asset_recommendation entry] else [])).
      intros [filename details] w0. apply when_push. }
  rewrite when_push, !pushed_pushed. reflexivity.
Qed.

Lemma no_webp_key (names : list string) :
  existsb is_webp names = false <->
  (forall filename, In filename names ->
                    JsString.toLowerCase (path.extname filename) <> ".webp").
Proof.
  split.
  - intros He filename Hin Heq.
    assert (Ht : existsb is_webp names = true).
    { apply existsb_exists. exists filename. split; [exact Hin|].
      unfold is_webp. now apply String.eqb_eq. }
    rewrite He in Ht. discriminate.
  - intros Hall. destruct (existsb is_webp names) eqn:He; [|reflexivity].
    apply existsb_exists in He. destruct He as (filename & Hin & Hw).
    apply String.eqb_eq in Hw. now apply Hall in Hin.
Qed.

Lemma webp_recommended_iff (a : Asset.analysis) :
  In webp_recommendation (asset_rules a) <->
  existsb is_webp (JsObject.keys (Asset.details a)) = false /\ 0 < Asset.totalAssets a.
Proof.
  unfold asset_rules. rewrite !in_app_iff, in_flat_map. split.
  - intros [H|[H|H]].
    + destruct (negb _); [destruct H as [H|[]]; discriminate H | destruct H].
    + destruct H as (entry & _ & H).
      destruct (String.eqb _ _); [destruct H as [H|[]]; discriminate H | destruct H].
    + destruct (existsb is_webp _); [destruct H|].
      destruct (Nat.ltb_spec 0 (Asset.totalAssets a)); [auto | destruct H].
  - intros [He Hn]. right. right. rewrite He.
    apply Nat.ltb_lt in Hn. rewrite Hn. now left.
Qed.

Lemma asset_rules_low (a : Asset.analysis) (rec : Recommendation) :
  In rec (asset_rules a) ->
  type rec = "Assets" /\ (priority rec = "low" -> rec = webp_recommendation).
Proof.
  unfold asset_rules. rewrite !in_app_iff, in_flat_map.
  intros [H|[H|H]].
  - destruct (negb _); [destruct H as [<-|[]] | destruct H].
    split; [reflexivity | discriminate].
  - destruct H as (entry & _ & H).
    destruct (String.eqb _ _); [destruct H as [<-|[]] | destruct H].
    split; [reflexivity | discriminate].
  - destruct (_ && _); [destruct H as [<-|[]] | destruct H].
    split; [reflexivity | reflexivity].
Qed.

(** C9: on an inventory that counts at least one asset the rules recommend
    the WebP format, a recommendation of priority low for assets, exactly
    when no asset of the inventory has the extension [.webp] in any
    spelling of upper and lower case; on an inventory that counts no asset
    they never do.  It is the only recommendation of priority low these
    rules make. *)
Theorem webp_recommendation_rule :
  forall (w : World) (inventory : Asset.analysis),
    assetAnalysis (results w) = Some inventory ->
    exists added : list Recommendation,
      evaluateAssetPerformance w = Returned tt (pushed w added) /\
      (0 < Asset.totalAssets inventory ->
       (In webp_recommendation added <->
        forall filename, In filename (JsObject.keys (Asset.details inventory)) ->
                         JsString.toLowerCase (path.extname filename) <> ".webp")) /\
      (Asset.totalAssets inventory = 0 -> ~ In webp_recommendation added) /\
      (forall rec, In rec added ->
                   type rec = "Assets" /\
                   (priority rec = "low" -> rec = webp_recommendation)).
Proof.
  intros w inventory Hinv. exists (asset_rules inventory).
  split; [now apply evaluateAssetPerformance_pushed|].
  repeat apply conj.
  - intros Hpos. rewrite webp_recommended_iff, no_webp_key. tauto.
  - intros Hzero Hin. apply webp_recommended_iff in Hin. lia.
  - apply asset_rules_low.
Qed.

Lemma webp_recommendation_rule_witness :
  In webp_recommendation
     (recommendations
        (results (world_of (evaluateAssetPerformance (inventoried constructor two_pngs))))).
Proof.
  destruct (webp_recommendation_rule (inventoried constructor two_pngs) two_pngs eq_refl)
    as (added & Heq & Hiff & _).
  rewrite Heq. cbn [world_of pushed results recommendations inventoried constructor app].
  apply Hiff; [cbn; lia|].
  intros filename [<-|[<-|[]]]; vm_compute; intros H; discriminate H.
Defined.

Lemma each_asset_returned (assets : list (string * N)) :
  forall (total : Q) (details : JsObject.t Asset.detail) (w : World),
  exists lines : list string,
    each_asset assets total details w
    = Returned (fold_left (fun total asset => (total + kilobytes (snd asset))%Q) assets total,
                fold_left (fun details asset =>
                             JsObject.set details (fst asset) (detail_of asset))
                          assets details)
               (logged w lines).
Proof.
  induction assets as [|[asset bytes] rest IH]; intros total details w.
  - exists []. cbn. unfold ret. now rewrite logged_nil.
  - cbn [each_asset fold_left fst snd].
    erewrite bind_returned by apply console_log_logged.
    destruct (IH (total + kilobytes bytes)%Q
                 (JsObject.set details asset (detail_of (asset, bytes)))
                 (logged w [template ["  "; asset; ": "; toString (kilobytes bytes); "KB - ";
                                      evaluateAssetSize asset (kilobytes bytes)]]))
      as [lines Hl].
    eexists. unfold detail_of at 1 in Hl. cbn [fst snd] in Hl.
    cbn [Asset.status]. rewrite Hl, logged_logged. reflexivity.
Qed.

(** [analyzeAssets] on a listing: it returns, stores the inventory of the
    listing, prints, and pushes what the rules give for that inventory. *)
Lemma analyzeAssets_returned (env : Fs.Env) (assets : list (string * N)) (w : World) :
  Fs.assets env = Some assets ->
  exists lines : list string,
    analyzeAssets env w
    = Returned tt (pushed (logged (inventoried w (inventory_of assets)) lines)
                          (asset_rules (inventory_of assets))).
Proof.
  intros Ha. unfold analyzeAssets. rewrite Ha.
  erewrite bind_returned by apply console_log_logged.
  destruct (each_asset_returned assets 0%Q [] (logged w ["🖼️ アセット分析中..."]))
    as [lines Hl].
  erewrite bind_returned by apply Hl.
  cbv beta iota zeta.
  erewrite bind_returned by reflexivity.
  do 2 (erewrite bind_returned by apply console_log_logged).
  erewrite evaluateAssetPerformance_pushed by reflexivity.
  eexists. f_equal. unfold pushed, logged, inventoried, update.
  cbn [results stdout stderr reportFile exitCode fileAnalysis cssAnalysis jsAnalysis
       assetAnalysis recommendations].
  rewrite <- !app_assoc. reflexivity.
Qed.

Local Open Scope Q_scope.

Lemma fold_total (assets : list (string * N)) :
  forall total : Q,
    fold_left (fun total asset => total + kilobytes (snd asset)) assets total
    == total + sum_Q (map (fun asset => kilobytes (snd asset)) assets).
Proof.
  induction assets as [|a rest IH]; intros total; cbn [fold_left map sum_Q].
  - lra.
  - rewrite IH. lra.
Qed.

Lemma Math_round_integer (k : Z) : Math_round (inject_Z k) = k.
Proof.
  unfold Math_round.
  pose proof (Qfloor_le (inject_Z k + (1 # 2))) as Hle.
  pose proof (Qlt_floor (inject_Z k + (1 # 2))) as Hlt.
  set (f := Qfloor (inject_Z k + (1 # 2))) in *. clearbody f.
  unfold Qle, Qlt, Qplus, inject_Z in Hle, Hlt. simpl in Hle, Hlt. lia.
Qed.

Lemma round2_comp (x y : Q) : x == y -> round2 x == round2 y.
Proof. intros E. unfold round2, Math_round. now rewrite E. Qed.

Lemma round2_hundredths (x : Q) : hundredths x -> round2 x == x.
Proof.
  intros [k Hk]. unfold round2.
  assert (E : x * 100 == inject_Z k) by (rewrite Hk; field).
  assert (R : Math_round (x * 100) = k).
  { unfold Math_round. rewrite E. apply Math_round_integer. }
  rewrite R. now rewrite Hk.
Qed.

Lemma kilobytes_hundredths (bytes : N) : hundredths (kilobytes bytes).
Proof. unfold kilobytes, round2. eexists. reflexivity. Qed.

Lemma sum_hundredths (xs : list Q) :
  (forall x, In x xs -> hundredths x) -> hundredths (sum_Q xs).
Proof.
  induction xs as [|x xs IH]; intros Hall; cbn [sum_Q].
  - exists 0%Z. reflexivity.
  - destruct (Hall x (or_introl eq_refl)) as [k Hk].
    destruct IH as [k' Hk']; [intros y Hy; apply Hall; now right|].
    exists (k + k')%Z. rewrite Hk, Hk', inject_Z_plus. field.
Qed.

(** The keys of an object after an assignment. *)
Lemma own_in_keys {A} (o : JsObject.t A) (k : string) (v : A) :
  JsObject.own o k = Some v -> In k (JsObject.keys o).
Proof.
  unfold JsObject.keys.
  induction o as [|[k' v'] o IH]; cbn; [discriminate|].
  destruct (String.eqb_spec k k') as [->|_]; [now left | right; now apply IH].
Qed.

Lemma keys_replace {A} (o : JsObject.t A) (k : string) (v : A) :
  JsObject.keys (JsObject.replace o k v) = JsObject.keys o.
Proof.
  unfold JsObject.keys.
  induction o as [|[k' v'] o IH]; cbn; [reflexivity|].
  destruct (String.eqb k k'); cbn; [reflexivity | now rewrite IH].
Qed.

Lemma keys_insert_index {A} (o : JsObject.t A) (n : N) (k : string) (v : A) (x : string) :
  In x (JsObject.keys (JsObject.insert_index o n k v)) <-> x = k \/ In x (JsObject.keys o).
Proof.
  unfold JsObject.keys.
  induction o as [|[k' v'] o IH]; cbn [JsObject.insert_index map fst In].
  - intuition.
  - destruct (JsObject.array_index k') as [n'|]; [destruct (n' <? n)%N|];
      cbn [map fst In]; rewrite ?IH; intuition.
Qed.

Lemma keys_set {A} (o : JsObject.t A) (k : string) (v : A) (x : string) :
  In x (JsObject.keys (JsObject.set o k v)) <->
  In x (JsObject.keys o) \/ (x = k /\ k <> "__proto__").
Proof.
  unfold JsObject.set.
  destruct (String.eqb_spec k "__proto__") as [->|Hk].
  - intuition.
  - destruct (JsObject.own o k) as [v'|] eqn:Eo.
    + rewrite keys_replace. apply own_in_keys in Eo. intuition (subst; auto).
    + destruct (JsObject.array_index k) as [n|].
      * rewrite keys_insert_index. intuition.
      * unfold JsObject.keys. rewrite map_app, in_app_iff. cbn. intuition.
Qed.

Lemma keys_of_listing (assets : list (string * N)) :
  forall (details : JsObject.t Asset.detail) (x : string),
    In x (JsObject.keys
            (fold_left (fun details asset => JsObject.set details (fst asset) (detail_of asset))
                       assets details)) <->
    In x (JsObject.keys details) \/ (In x (map fst assets) /\ x <> "__proto__").
Proof.
  induction assets as [|a rest IH]; intros details x; cbn [fold_left map In].
  - intuition.
  - rewrite IH, keys_set. intuition (subst; auto).
Qed.

(** The rule on the inventory that [analyzeAssets] builds, in terms of the
    listing: the recommendation is made exactly when the directory is not
    empty and lists no name with the extension [.webp]. *)
Lemma webp_recommended_for_listing (assets : list (string * N)) :
  In webp_recommendation (asset_rules (inventory_of assets)) <->
  assets <> [] /\
  (forall asset, In asset assets ->
                 JsString.toLowerCase (path.extname (fst asset)) <> ".webp").
Proof.
  rewrite webp_recommended_iff, no_webp_key. cbn [inventory_of Asset.details Asset.totalAssets].
  split.
  - intros [Hnone Hpos]. split; [destruct assets; [cbn in Hpos; lia | discriminate]|].
    intros asset Hin Hw. apply (Hnone (fst asset)); [|exact Hw].
    apply keys_of_listing. right. split; [now apply in_map|].
    intros E. rewrite E in Hw. vm_compute in Hw. discriminate.
  - intros [Hne Hall]. split.
    + intros filename Hin. apply keys_of_listing in Hin.
      destruct Hin as [[]|[Hin _]].
      apply in_map_iff in Hin. destruct Hin as (asset & <- & Hin). now apply Hall.
    + destruct assets; [contradiction | cbn; lia].
Qed.

(** C2, as the specification states it, fails: for two assets of 5 bytes
    the program stores the total 0, where the exact sizes sum to 10/1024 KB,
    which rounds to 0.01. *)
Lemma total_is_not_rounded_once :
  match assetAnalysis (results (world_of (analyzeAssets (listing two_small_assets)
                                                        constructor))) with
  | Some inventory =>
      Asset.totalSize inventory == 0 /\
      total_rounded_once two_small_assets == 1 # 100 /\
      ~ Asset.totalSize inventory == total_rounded_once two_small_assets
  | None => False
  end.
Proof. vm_compute. repeat apply conj; [reflexivity | reflexivity | discriminate]. Qed.

(** C2, amended: the size of each asset is rounded to two decimals when it
    is measured, the total is the sum of these rounded sizes, rounded to two
    decimals once more when the inventory is stored; this last rounding
    changes nothing in exact arithmetic, the sum of the rounded sizes being
    a whole number of hundredths. *)
Theorem total_size_of_rounded_sizes :
  forall (env : Fs.Env) (assets : list (string * N)) (w : World),
    Fs.assets env = Some assets ->
    exists (w' : World) (inventory : Asset.analysis),
      analyzeAssets env w = Returned tt w' /\
      assetAnalysis (results w') = Some inventory /\
      Asset.totalAssets inventory = List.length assets /\
      Asset.totalSize inventory
      == round2 (sum_Q (map (fun asset => kilobytes (snd asset)) assets)) /\
      Asset.totalSize inventory == sum_Q (map (fun asset => kilobytes (snd asset)) assets).
Proof.
  intros env assets w Ha.
  destruct (analyzeAssets_returned env assets w Ha) as [lines Hr].
  do 2 eexists. split; [exact Hr|]. split; [reflexivity|]. split; [reflexivity|].
  cbn [inventory_of Asset.totalSize].
  assert (E : fold_left (fun total asset => total + kilobytes (snd asset)) assets 0
              == sum_Q (map (fun asset => kilobytes (snd asset)) assets))
    by (rewrite fold_total; lra).
  rewrite (round2_comp _ _ E). split; [reflexivity|].
  apply round2_hundredths, sum_hundredths.
  intros x Hx. apply in_map_iff in Hx. destruct Hx as (a & <- & _).
  apply kilobytes_hundredths.
Qed.

Lemma total_size_of_rounded_sizes_witness :
  exists inventory : Asset.analysis,
    assetAnalysis (results (world_of (analyzeAssets
                                        (listing [("a.png", 1500%N); ("b.gif", 2500%N)])
                                        constructor)))
    = Some inventory /\
    Asset.totalSize inventory == 39 # 10.
Proof.
  destruct (total_size_of_rounded_sizes
              (listing [("a.png", 1500%N); ("b.gif", 2500%N)])
              [("a.png", 1500%N); ("b.gif", 2500%N)] constructor eq_refl)
    as (w' & inventory & Hr & Hi & _ & _ & Hsum).
  exists inventory. rewrite Hr. split; [exact Hi|].
  rewrite Hsum. vm_compute. reflexivity.
Defined.

End Assets.

(** ** The priorities of the recommendations of a runner *)

Section Priorities.

Lemma length_by_priority (recs : list Recommendation) :
  Forall known_priority recs ->
  List.length recs
  = List.length (with_priority "high" recs) + List.length (with_priority "medium" recs)
    + List.length (with_priority "low" recs).
Proof.
  induction 1 as [|r recs Hr _ IH]; [reflexivity|].
  unfold with_priority in *. cbn [filter List.length].
  destruct Hr as [E|[E|E]]; rewrite E; cbn [String.eqb Ascii.eqb Bool.eqb List.length]; lia.
Qed.

Lemma preserves_ret {A} (a : A) : preserves (ret a).
Proof. intros w Hw. exact Hw. Qed.

Lemma preserves_bind {A B} (m : M A) (f : A -> M B) :
  preserves m -> (forall a, preserves (f a)) -> preserves (bind m f).
Proof.
  intros Hm Hf w Hw. unfold bind.
  specialize (Hm w Hw). destruct (m w) as [a w'|e w']; cbn in Hm.
  - now apply Hf.
  - exact Hm.
Qed.

Lemma preserves_when (c : bool) (m : M unit) : preserves m -> preserves (when c m).
Proof. destruct c; [auto | intros _; apply preserves_ret]. Qed.

Lemma preserves_forEach {A} (xs : list A) (f : A -> M unit) :
  (forall x, preserves (f x)) -> preserves (forEach xs f).
Proof.
  intros Hf. induction xs as [|x xs IH]; cbn [forEach].
  - apply preserves_ret.
  - apply preserves_bind; [apply Hf | intros _; exact IH].
Qed.

Lemma preserves_forEach_from {A} (xs : list A) (f : A -> nat -> M unit) :
  (forall x i, preserves (f x i)) -> forall i, preserves (forEach_from i xs f).
Proof.
  intros Hf. induction xs as [|x xs IH]; intros i; cbn [forEach_from].
  - apply preserves_ret.
  - apply preserves_bind; [apply Hf | intros _; apply IH].
Qed.

Lemma preserves_console_log (line : string) : preserves (console_log line).
Proof. intros w Hw. exact Hw. Qed.

Lemma preserves_console_error (line : string) : preserves (console_error line).
Proof. intros w Hw. exact Hw. Qed.

Lemma preserves_process_exit (c : Z) : preserves (process_exit c).
Proof. intros w Hw. exact Hw. Qed.

Lemma preserves_throw {A} (e : string) : preserves (@throw A e).
Proof. intros w Hw. exact Hw. Qed.

Lemma preserves_this_results : preserves this_results.
Proof. intros w Hw. exact Hw. Qed.

Lemma preserves_push (rec : Recommendation) : known_priority rec -> preserves (push rec).
Proof.
  intros Hrec w [Hrecs Hrep]. split; [|exact Hrep].
  cbn. apply Forall_app. split; [exact Hrecs | now constructor].
Qed.

(** An update of [this.results] that leaves the recommendations alone. *)
Lemma preserves_update (f : Results -> Results) :
  (forall r, recommendations (f r) = recommendations r) -> preserves (update f).
Proof.
  intros Hf w [Hrecs Hrep]. split; [|exact Hrep].
  cbn. now rewrite Hf.
Qed.

Lemma preserves_try_catch (body : M unit) (handler : string -> M unit) :
  preserves body -> (forall e, preserves (handler e)) -> preserves (try_catch body handler).
Proof.
  intros Hb Hh w Hw. unfold try_catch.
  specialize (Hb w Hw). destruct (body w) as [a w'|e w']; cbn in Hb.
  - exact Hb.
  - now apply Hh.
Qed.

(** One step through the shape of a method; [call] settles the calls of
    other methods. *)
Ltac preserve_step :=
  lazymatch goal with
  | |- preserves (ret _) => apply preserves_ret
  | |- preserves (console_log _) => apply preserves_console_log
  | |- preserves (console_error _) => apply preserves_console_error
  | |- preserves (process_exit _) => apply preserves_process_exit
  | |- preserves (throw _) => apply preserves_throw
  | |- preserves this_results => apply preserves_this_results
  | |- preserves (update _) => apply preserves_update; intros ?; reflexivity
  | |- preserves (push _) =>
      apply preserves_push; unfold known_priority; cbn [priority]; auto
  | |- preserves (when _ _) => apply preserves_when
  | |- preserves (forEach _ _) => apply preserves_forEach; intros ?
  | |- preserves (forEach_from _ _ _) => apply preserves_forEach_from; intros ? ?
  | |- preserves (try_catch _ _) => apply preserves_try_catch; [|intros ?]
  | |- preserves (bind _ _) => apply preserves_bind; [|intros ?]
  | |- preserves (match ?x with _ => _ end) => destruct x
  end.

Ltac preserve_with call := repeat (cbv beta zeta; first [preserve_step | call]).
Ltac preserve := preserve_with fail.

Lemma preserves_analyzeFileSizes (env : Fs.Env) : preserves (analyzeFileSizes env).
Proof. unfold analyzeFileSizes, set_fileAnalysis. preserve. Qed.

Lemma preserves_evaluateCSSPerformance (a : Css.analysis) :
  preserves (evaluateCSSPerformance a).
Proof. unfold evaluateCSSPerformance. preserve. Qed.

Lemma preserves_analyzeCSSPerformance (env : Fs.Env) : preserves (analyzeCSSPerformance env).
Proof.
  unfold analyzeCSSPerformance, set_cssAnalysis.
  preserve_with ltac:(apply preserves_evaluateCSSPerformance).
Qed.

Lemma preserves_evaluateJSPerformance (a : Js.analysis) :
  preserves (evaluateJSPerformance a).
Proof. unfold evaluateJSPerformance. preserve. Qed.

Lemma preserves_analyzeJSPerformance (env : Fs.Env) : preserves (analyzeJSPerformance env).
Proof.
  unfold analyzeJSPerformance, set_jsAnalysis.
  preserve_with ltac:(apply preserves_evaluateJSPerformance).
Qed.

Lemma preserves_evaluateAssetPerformance : preserves evaluateAssetPerformance.
Proof. unfold evaluateAssetPerformance. preserve. Qed.

Lemma preserves_each_asset (assets : list (string * N)) :
  forall (total : Q) (details : JsObject.t Asset.detail),
    preserves (each_asset assets total details).
Proof.
  induction assets as [|[asset bytes] rest IH]; intros total details; cbn [each_asset].
  - preserve.
  - preserve_with ltac:(apply IH).
Qed.

Lemma preserves_analyzeAssets (env : Fs.Env) : preserves (analyzeAssets env).
Proof.
  unfold analyzeAssets, set_assetAnalysis.
  preserve_with ltac:(first [ apply preserves_each_asset
                            | apply preserves_evaluateAssetPerformance ]).
Qed.

(** The report is written from recommendations that satisfy the invariant:
    its counts add up. *)
Lemma preserves_saveJSONReport (env : Fs.Env) (value : Z) :
  preserves (saveJSONReport env value).
Proof.
  intros w [Hrecs Hrep]. split; [exact Hrecs|].
  intros r Hr. cbn in Hr. inversion Hr; subst r.
  unfold counts_add_up. cbn. now apply length_by_priority.
Qed.

Lemma preserves_printRecommendations (recs : list Recommendation) :
  preserves (printRecommendations recs).
Proof. unfold printRecommendations, forEach_indexed. preserve. Qed.

Lemma preserves_generateReport (env : Fs.Env) : preserves (generateReport env).
Proof.
  unfold generateReport.
  preserve_with ltac:(first [ apply preserves_printRecommendations
                            | apply preserves_saveJSONReport ]).
Qed.

Lemma preserves_run (env : Fs.Env) : preserves (run env).
Proof.
  unfold run.
  preserve_with ltac:(first [ apply preserves_analyzeFileSizes
                            | apply preserves_analyzeCSSPerformance
                            | apply preserves_analyzeJSPerformance
                            | apply preserves_analyzeAssets
                            | apply preserves_generateReport ]).
Qed.

Lemma preserves_call (m : method) : preserves (call m).
Proof.
  destruct m; cbn [call].
  - apply preserves_analyzeFileSizes.
  - apply preserves_analyzeCSSPerformance.
  - apply preserves_evaluateCSSPerformance.
  - apply preserves_analyzeJSPerformance.
  - apply preserves_evaluateJSPerformance.
  - apply preserves_analyzeAssets.
  - apply preserves_evaluateAssetPerformance.
  - apply preserves_generateReport.
  - apply preserves_saveJSONReport.
  - apply preserves_run.
Qed.

Lemma reachable_well_formed (w : World) : reachable w -> well_formed w.
Proof.
  induction 1 as [|m w _ IH].
  - split; [constructor | discriminate].
  - now apply preserves_call.
Qed.

(** C10: whatever methods were called on a runner, each of its
    recommendations has the priority high, medium or low, and in the report
    it wrote the number of recommendations is the sum of the three counts
    by priority. *)
Theorem priorities_partition_recommendations :
  forall w : World,
    reachable w ->
    (forall rec, In rec (recommendations (results w)) ->
                 priority rec = "high" \/ priority rec = "medium" \/ priority rec = "low") /\
    (forall report, reportFile w = Some report ->
                    totalRecommendations (summary report)
                    = highPriorityIssues (summary report)
                      + mediumPriorityIssues (summary report)
                      + lowPriorityIssues (summary report)).
Proof.
  intros w Hw. destruct (reachable_well_formed w Hw) as [Hrecs Hrep]. split.
  - intros rec Hin. rewrite Forall_forall in Hrecs. now apply Hrecs.
  - exact Hrep.
Qed.

Lemma priorities_partition_recommendations_witness :
  exists report : Report,
    reportFile (world_of (call (Run sample_site) constructor)) = Some report /\
    totalRecommendations (summary report) = 4 /\
    totalRecommendations (summary report)
    = highPriorityIssues (summary report) + mediumPriorityIssues (summary report)
      + lowPriorityIssues (summary report).
Proof.
  pose proof (priorities_partition_recommendations
                (world_of (call (Run sample_site) constructor))
                (reachable_call (Run sample_site) constructor reachable_new))
    as [_ Hsum].
  destruct (reportFile (world_of (call (Run sample_site) constructor)))
    as [report|] eqn:E.
  - exists report. split; [reflexivity|]. split; [|now apply Hsum].
    revert E. vm_compute. intros E. injection E as <-. reflexivity.
  - exfalso. revert E. vm_compute. discriminate.
Defined.

End Priorities.

(** ** More about the score *)

Section ScoreFacts.

Local Open Scope Z_scope.

Lemma count_app (p : string) (a b : list Recommendation) :
  count p (a ++ b) = count p a + count p b.
Proof. unfold count, with_priority. rewrite filter_app, length_app. lia. Qed.

Lemma count_permutation (p : string) (a b : list Recommendation) :
  Permutation a b -> count p a = count p b.
Proof.
  intros H. unfold count, with_priority. f_equal.
  induction H as [|x a b _ IH|x y a|a b c _ IH1 _ IH2]; cbn [filter].
  - reflexivity.
  - destruct (String.eqb (priority x) p); cbn [List.length]; now rewrite IH.
  - destruct (String.eqb (priority x) p), (String.eqb (priority y) p); reflexivity.
  - now rewrite IH1.
Qed.

(** X1: The score is a whole number from 0 to 100, whatever the list. *)
Theorem score_range :
  forall recs : list Recommendation, 0 <= computeScore recs <= 100.
Proof.
  intros recs. rewrite computeScore_formula.
  pose proof (count_nonneg "high" recs).
  pose proof (count_nonneg "medium" recs).
  pose proof (count_nonneg "low" recs). lia.
Qed.

(** X2: The score does not depend on the order of the recommendations. *)
Theorem score_order_independent :
  forall recs recs' : list Recommendation,
    Permutation recs recs' -> computeScore recs = computeScore recs'.
Proof.
  intros recs recs' H. rewrite !computeScore_formula.
  now rewrite (count_permutation "high" _ _ H), (count_permutation "medium" _ _ H),
    (count_permutation "low" _ _ H).
Qed.

Lemma score_order_independent_witness :
  computeScore [sample "low"; sample "high"] = computeScore [sample "high"; sample "low"].
Proof. apply score_order_independent. apply perm_swap. Defined.

Lemma score_never_rises_lemma (recs more : list Recommendation) :
  computeScore (recs ++ more) <= computeScore recs.
Proof.
  rewrite !computeScore_formula, !count_app.
  pose proof (count_nonneg "high" more).
  pose proof (count_nonneg "medium" more).
  pose proof (count_nonneg "low" more). lia.
Qed.

(** X3: More recommendations never raise the score. *)
Theorem score_never_rises :
  forall recs more : list Recommendation,
    computeScore (recs ++ more) <= computeScore recs.
Proof. exact score_never_rises_lemma. Qed.

Lemma count_unknown (p : string) (r : Recommendation) :
  priority r <> p -> count p [r] = 0.
Proof.
  intros H. unfold count, with_priority. cbn [filter].
  destruct (String.eqb_spec (priority r) p); [contradiction | reflexivity].
Qed.

(** X4: The [switch] of the score loop has no default: a recommendation whose
    priority is none of the three leaves the score as it is, wherever it
    stands in the list. *)
Theorem unknown_priority_costs_nothing :
  forall (before after : list Recommendation) (rec : Recommendation),
    priority rec <> "high" -> priority rec <> "medium" -> priority rec <> "low" ->
    computeScore (before ++ rec :: after) = computeScore (before ++ after).
Proof.
  intros before after rec Hh Hm Hl.
  change (rec :: after) with ([rec] ++ after).
  rewrite !computeScore_formula, !count_app.
  now rewrite (count_unknown "high" rec Hh), (count_unknown "medium" rec Hm),
    (count_unknown "low" rec Hl).
Qed.

Lemma unknown_priority_costs_nothing_witness :
  computeScore ([sample "high"] ++ sample "urgent" :: [sample "low"])
  = computeScore ([sample "high"] ++ [sample "low"]).
Proof. apply unknown_priority_costs_nothing; discriminate. Defined.

End ScoreFacts.

(** ** More about the size classifiers *)

Section ClassifierFacts.

Import Number.
Local Open Scope Q_scope.

Lemma rule_cases (limit : number) (s : Q) :
  (rule limit s = Good /\ exists t, limit = Some t /\ s <= t) \/
  (rule limit s = Warning /\ exists t, limit = Some t /\ t < s /\ s <= t * 1.5) \/
  (rule limit s = NeedsImprovement /\
   (limit = None \/ exists t, limit = Some t /\ t < s /\ t * 1.5 < s)).
Proof.
  destruct limit as [t|]; [|right; right; split; [reflexivity | now left]].
  unfold rule, le, times.
  destruct (Qle_bool s t) eqn:E1.
  - left. split; [reflexivity|]. exists t. split; [reflexivity|]. now apply Qle_bool_iff.
  - assert (H1 : t < s).
    { apply Qnot_le_lt. intros H. apply Qle_bool_iff in H. congruence. }
    destruct (Qle_bool s (t * 1.5)) eqn:E2.
    + right; left. split; [reflexivity|]. exists t.
      repeat split; [exact H1 | now apply Qle_bool_iff].
    + right; right. split; [reflexivity|]. right. exists t.
      repeat split; [exact H1|].
      apply Qnot_le_lt. intros H. apply Qle_bool_iff in H. congruence.
Qed.

Lemma rule_monotone (limit : number) (s1 s2 : Q) :
  s1 <= s2 -> (verdict_rank (rule limit s1) <= verdict_rank (rule limit s2))%nat.
Proof.
  intros Hle.
  destruct (rule_cases limit s1) as [[E1 H1]|[[E1 H1]|[E1 H1]]];
    destruct (rule_cases limit s2) as [[E2 H2]|[[E2 H2]|[E2 H2]]];
    rewrite E1, E2; try (cbv; lia); exfalso.
  - destruct H1 as (t & Ht & H1 & _), H2 as (t' & Ht' & H2).
    rewrite Ht in Ht'. injection Ht' as <-. lra.
  - destruct H2 as (t' & Ht' & H2).
    destruct H1 as [H1|(t & Ht & H1 & _)]; [congruence|].
    rewrite Ht in Ht'. injection Ht' as <-. lra.
  - destruct H2 as (t' & Ht' & _ & H2).
    destruct H1 as [H1|(t & Ht & _ & H1)]; [congruence|].
    rewrite Ht in Ht'. injection Ht' as <-. lra.
Qed.

(** X5: A larger size never gets a better verdict, with either classifier and
    for every name. *)
Theorem verdict_monotone_in_size :
  forall (name : string) (size1 size2 : Q),
    size1 <= size2 ->
    (verdict_rank (evaluateFileSize name size1)
     <= verdict_rank (evaluateFileSize name size2))%nat /\
    (verdict_rank (evaluateAssetSize name size1)
     <= verdict_rank (evaluateAssetSize name size2))%nat.
Proof.
  intros name size1 size2 H.
  rewrite !evaluateFileSize_rule, !evaluateAssetSize_rule.
  split; now apply rule_monotone.
Qed.

Lemma verdict_monotone_in_size_witness :
  (verdict_rank (evaluateFileSize "styles.css" 60)
   <= verdict_rank (evaluateFileSize "styles.css" 80))%nat /\
  (verdict_rank (evaluateAssetSize "banner.gif" 1000)
   <= verdict_rank (evaluateAssetSize "banner.gif" 2500))%nat.
Proof.
  destruct (verdict_monotone_in_size "styles.css" 60 80) as [Hf _]; [discriminate|].
  destruct (verdict_monotone_in_size "banner.gif" 1000 2500) as [_ Ha]; [discriminate|].
  split; [exact Hf | exact Ha].
Defined.

(** X6: The verdict of the asset classifier tells where the size lies: for every
    name the limit of its extension is a positive number, and the verdict is
    Good exactly up to the limit, Warning exactly above it and up to 1.5
    times the limit, NeedsImprovement exactly above that. *)
Theorem asset_verdict_characterised :
  forall (filename : string) (sizeKB : Q),
  exists limit : Q,
    assetLimit (JsString.toLowerCase (path.extname filename)) = Some limit /\
    0 < limit /\
    (evaluateAssetSize filename sizeKB = Good <-> sizeKB <= limit) /\
    (evaluateAssetSize filename sizeKB = Warning <->
     limit < sizeKB /\ sizeKB <= limit * 1.5) /\
    (evaluateAssetSize filename sizeKB = NeedsImprovement <-> limit * 1.5 < sizeKB).
Proof.
  intros filename sizeKB.
  destruct (assetLimit_number filename) as (t & E & Ht).
  exists t. split; [exact E|]. split; [exact Ht|].
  rewrite evaluateAssetSize_rule, E.
  destruct (rule_cases (Some t) sizeKB) as [[Er H]|[[Er H]|[Er H]]]; rewrite Er.
  - destruct H as (t' & Et & H). injection Et as <-.
    repeat split; intros; try discriminate; try reflexivity; try assumption; lra.
  - destruct H as (t' & Et & H1 & H2). injection Et as <-.
    repeat split; intros; try discriminate; try reflexivity; try assumption; lra.
  - destruct H as [H|(t' & Et & H1 & H2)]; [discriminate|]. injection Et as <-.
    repeat split; intros; try discriminate; try reflexivity; try assumption; lra.
Qed.

(** X7: A name the table does not list gets the default limit: 50 KB for a file
    (when the name is no property of [Object.prototype]), 500 KB for an asset,
    whether its extension is unknown or missing. *)
Theorem unlisted_names_get_the_default :
  forall (name : string) (sizeKB : Q),
    (JsObject.own file_limits name = None -> JsObject.inherited name = false ->
     fileLimit name = Some 50 /\
     (evaluateFileSize name sizeKB = Good <-> sizeKB <= 50) /\
     (evaluateFileSize name sizeKB = NeedsImprovement <-> 75 < sizeKB)) /\
    (JsObject.own asset_limits (JsString.toLowerCase (path.extname name)) = None ->
     assetLimit (JsString.toLowerCase (path.extname name)) = Some 500 /\
     (evaluateAssetSize name sizeKB = Good <-> sizeKB <= 500) /\
     (evaluateAssetSize name sizeKB = NeedsImprovement <-> 750 < sizeKB)).
Proof.
  intros name sizeKB. split.
  - intros Ho Hi.
    assert (E : fileLimit name = Some 50).
    { unfold fileLimit, JsObject.get. now rewrite Ho, Hi. }
    split; [exact E|]. rewrite evaluateFileSize_rule, E.
    destruct (rule_cases (Some 50) sizeKB) as [[Er H]|[[Er H]|[Er H]]]; rewrite Er.
    + destruct H as (t' & Et & H). injection Et as <-.
      repeat split; intros; try discriminate; try reflexivity; try assumption; lra.
    + destruct H as (t' & Et & H1 & H2). injection Et as <-.
      repeat split; intros; try discriminate; try reflexivity; try assumption; lra.
    + destruct H as [H|(t' & Et & H1 & H2)]; [discriminate|]. injection Et as <-.
      repeat split; intros; try discriminate; try reflexivity; try assumption; lra.
  - intros Ho.
    assert (E : assetLimit (JsString.toLowerCase (path.extname name)) = Some 500).
    { unfold assetLimit, JsObject.get. now rewrite Ho, extension_not_inherited. }
    split; [exact E|]. rewrite evaluateAssetSize_rule, E.
    destruct (rule_cases (Some 500) sizeKB) as [[Er H]|[[Er H]|[Er H]]]; rewrite Er.
    + destruct H as (t' & Et & H). injection Et as <-.
      repeat split; intros; try discriminate; try reflexivity; try assumption; lra.
    + destruct H as (t' & Et & H1 & H2). injection Et as <-.
      repeat split; intros; try discriminate; try reflexivity; try assumption; lra.
    + destruct H as [H|(t' & Et & H1 & H2)]; [discriminate|]. injection Et as <-.
      repeat split; intros; try discriminate; try reflexivity; try assumption; lra.
Qed.

Lemma unlisted_names_get_the_default_witness :
  fileLimit "about.html" = Some 50 /\
  assetLimit (JsString.toLowerCase (path.extname "README")) = Some 500 /\
  assetLimit (JsString.toLowerCase (path.extname "notes.TXT")) = Some 500.
Proof.
  destruct (unlisted_names_get_the_default "about.html" 0) as [Hf _].
  destruct (unlisted_names_get_the_default "README" 0) as [_ Ha].
  destruct (unlisted_names_get_the_default "notes.TXT" 0) as [_ Hb].
  repeat apply conj.
  - apply Hf; reflexivity.
  - apply Ha. reflexivity.
  - apply Hb. reflexivity.
Defined.

End ClassifierFacts.

(** ** More about sizes in KB *)

Section SizeFacts.

Import Number.
Local Open Scope Q_scope.

Lemma Math_round_close (x : Q) :
  x - (1 # 2) < inject_Z (Math_round x) /\ inject_Z (Math_round x) <= x + (1 # 2).
Proof.
  unfold Math_round.
  pose proof (Qfloor_le (x + (1 # 2))) as Hle.
  pose proof (Qlt_floor (x + (1 # 2))) as Hlt.
  rewrite inject_Z_plus in Hlt.
  change (inject_Z 1) with 1 in Hlt. split; lra.
Qed.

Lemma round2_close (x : Q) :
  x - (1 # 200) < round2 x /\ round2 x <= x + (1 # 200).
Proof.
  unfold round2. destruct (Math_round_close (x * 100)) as [H1 H2].
  set (r := inject_Z (Math_round (x * 100))) in *. clearbody r.
  assert (E : r / 100 == r * (1 # 100)) by field.
  rewrite E. split; lra.
Qed.

Lemma round2_monotone (x y : Q) : x <= y -> round2 x <= round2 y.
Proof.
  intros H. unfold round2, Math_round.
  assert (Hf : (Qfloor (x * 100 + (1 # 2)) <= Qfloor (y * 100 + (1 # 2)))%Z)
    by (apply Qfloor_resp_le; lra).
  rewrite Zle_Qle in Hf.
  set (a := inject_Z (Qfloor (x * 100 + (1 # 2)))) in *.
  set (b := inject_Z (Qfloor (y * 100 + (1 # 2)))) in *. clearbody a b.
  assert (Ea : a / 100 == a * (1 # 100)) by field.
  assert (Eb : b / 100 == b * (1 # 100)) by field.
  rewrite Ea, Eb. lra.
Qed.

Lemma exact_kilobytes_monotone (b1 b2 : N) :
  (b1 <= b2)%N -> exact_kilobytes b1 <= exact_kilobytes b2.
Proof.
  intros H. unfold exact_kilobytes.
  assert (Hz : inject_Z (Z.of_N b1) <= inject_Z (Z.of_N b2)) by (rewrite <- Zle_Qle; lia).
  set (a := inject_Z (Z.of_N b1)) in *. set (b := inject_Z (Z.of_N b2)) in *. clearbody a b.
  assert (Ea : a / 1024 == a * (1 # 1024)) by field.
  assert (Eb : b / 1024 == b * (1 # 1024)) by field.
  rewrite Ea, Eb. lra.
Qed.

(** X8: The size in KB that is recorded for a file or an asset differs from its
    exact size in KB by at most half a hundredth. *)
Theorem kilobytes_within_half_a_hundredth :
  forall bytes : N,
    exact_kilobytes bytes - (1 # 200) < kilobytes bytes /\
    kilobytes bytes <= exact_kilobytes bytes + (1 # 200).
Proof. intros bytes. apply round2_close. Qed.

(** X9: A file with more bytes never gets a smaller size in KB. *)
Theorem kilobytes_monotone :
  forall b1 b2 : N, (b1 <= b2)%N -> kilobytes b1 <= kilobytes b2.
Proof.
  intros b1 b2 H. unfold kilobytes.
  apply round2_monotone. now apply exact_kilobytes_monotone.
Qed.

Lemma kilobytes_monotone_witness : kilobytes 1500 <= kilobytes 1505.
Proof. apply kilobytes_monotone. discriminate. Defined.

Lemma inventory_total (assets : list (string * N)) :
  Asset.totalSize (inventory_of assets)
  == sum_Q (map (fun asset => kilobytes (snd asset)) assets).
Proof.
  cbn [inventory_of Asset.totalSize].
  assert (E : fold_left (fun total asset => total + kilobytes (snd asset)) assets 0
              == sum_Q (map (fun asset => kilobytes (snd asset)) assets))
    by (rewrite fold_total; lra).
  rewrite (round2_comp _ _ E).
  apply round2_hundredths, sum_hundredths.
  intros x Hx. apply in_map_iff in Hx. destruct Hx as (a & <- & _).
  apply kilobytes_hundredths.
Qed.

Lemma sum_close (assets : list (string * N)) :
  let exact := sum_Q (map (fun asset => exact_kilobytes (snd asset)) assets) in
  let recorded := sum_Q (map (fun asset => kilobytes (snd asset)) assets) in
  let n := inject_Z (Z.of_nat (List.length assets)) in
  exact - n * (1 # 200) <= recorded /\ recorded <= exact + n * (1 # 200).
Proof.
  induction assets as [|a rest IH]; cbn [map sum_Q List.length].
  - change (inject_Z (Z.of_nat 0)) with 0. split; lra.
  - cbn zeta in IH. rewrite Nat2Z.inj_succ. unfold Z.succ. rewrite inject_Z_plus.
    change (inject_Z 1) with 1.
    destruct (round2_close (exact_kilobytes (snd a))) as [H1 H2].
    change (round2 (exact_kilobytes (snd a))) with (kilobytes (snd a)) in H1, H2.
    destruct IH as [I1 I2]. split; lra.
Qed.

(** X10: In exact arithmetic, the recorded sizes and their sum being the
    rationals of the model where the program holds the nearest doubles,
    the total of an inventory of [n] assets differs from the exact total in
    KB by at most [n] times half a hundredth. *)
Theorem total_size_error_bound :
  forall (env : Fs.Env) (assets : list (string * N)) (w : World),
    Fs.assets env = Some assets ->
    exists (w' : World) (inventory : Asset.analysis),
      analyzeAssets env w = Returned tt w' /\
      assetAnalysis (results w') = Some inventory /\
      sum_Q (map (fun asset => exact_kilobytes (snd asset)) assets)
      - inject_Z (Z.of_nat (List.length assets)) * (1 # 200)
      <= Asset.totalSize inventory /\
      Asset.totalSize inventory
      <= sum_Q (map (fun asset => exact_kilobytes (snd asset)) assets)
         + inject_Z (Z.of_nat (List.length assets)) * (1 # 200).
Proof.
  intros env assets w Ha.
  destruct (analyzeAssets_returned env assets w Ha) as [lines Hr].
  do 2 eexists. split; [exact Hr|]. split; [reflexivity|].
  rewrite inventory_total. apply sum_close.
Qed.

Lemma total_size_error_bound_witness :
  exists inventory : Asset.analysis,
    assetAnalysis (results (world_of (analyzeAssets (listing two_small_assets) constructor)))
    = Some inventory /\
    sum_Q (map (fun asset => exact_kilobytes (snd asset)) two_small_assets) - (2 # 200)
    <= Asset.totalSize inventory.
Proof.
  destruct (total_size_error_bound (listing two_small_assets) two_small_assets
              constructor eq_refl) as (w' & inventory & Hr & Hi & Hlow & _).
  exists inventory. rewrite Hr. split; [exact Hi|]. exact Hlow.
Defined.

End SizeFacts.

(** ** The rules of the three analyses *)

Section Rules.

Lemma evaluateCSSPerformance_pushed (a : Css.analysis) (w : World) :
  evaluateCSSPerformance a w = Returned tt (pushed w (css_rules a)).
Proof.
  unfold evaluateCSSPerformance, css_rules.
  do 3 (erewrite bind_returned by apply when_push).
  rewrite when_push, !pushed_pushed, <- ?app_assoc. reflexivity.
Qed.

Lemma evaluateJSPerformance_pushed (a : Js.analysis) (w : World) :
  evaluateJSPerformance a w = Returned tt (pushed w (js_rules a)).
Proof.
  unfold evaluateJSPerformance, js_rules.
  do 3 (erewrite bind_returned by apply when_push).
  rewrite when_push, !pushed_pushed, <- ?app_assoc. reflexivity.
Qed.

(** Settles the statements about a list of at most four given
    recommendations. *)
Ltac settle :=
  repeat match goal with
         | |- _ /\ _ => split
         | |- _ <-> _ => split
         | |- forall _, _ => intro
         | H : _ /\ _ |- _ => destruct H
         | H : exists _, _ |- _ => destruct H
         | H : In _ (_ :: _) |- _ => destruct H
         | H : In _ [] |- _ => destruct H
         | H : _ :: _ = [] |- _ => discriminate H
         end;
  subst; cbn [type priority] in *;
  try discriminate; try reflexivity; try lia;
  try match goal with
      | |- exists rec, In rec ?l /\ priority rec = _ =>
          first [ exists (nth 0 l (sample "")); split; [cbn; tauto | reflexivity]
                | exists (nth 1 l (sample "")); split; [cbn; tauto | reflexivity]
                | exists (nth 2 l (sample "")); split; [cbn; tauto | reflexivity]
                | exists (nth 3 l (sample "")); split; [cbn; tauto | reflexivity] ]
      end.

(** X11: The four rules of the stylesheet analysis.  [evaluateCSSPerformance]
    returns and pushes at most four recommendations of type CSS: one of
    priority high exactly when [will-change] is used less often than
    [animation], one of priority medium for more than 10 complex selectors,
    one of priority medium for more than 5 uses of [!important], one of
    priority low for more than 500 rules; a count at the bound pushes nothing. *)
Theorem stylesheet_rules :
  forall (a : Css.analysis) (w : World),
  exists added : list Recommendation,
    evaluateCSSPerformance a w = Returned tt (pushed w added) /\
    List.length added <= 4 /\
    (forall rec, In rec added -> type rec = "CSS") /\
    ((exists rec, In rec added /\ priority rec = "high") <->
     Css.willChangeUsage a < Css.animationUsage a) /\
    List.length (with_priority "medium" added)
    = (if 10 <? Css.complexSelectors a then 1 else 0)
      + (if 5 <? Css.importantUsage a then 1 else 0) /\
    ((exists rec, In rec added /\ priority rec = "low") <-> 500 < Css.totalRules a) /\
    (added = [] <->
     Css.animationUsage a <= Css.willChangeUsage a /\ Css.complexSelectors a <= 10 /\
     Css.importantUsage a <= 5 /\ Css.totalRules a <= 500).
Proof.
  intros a w. exists (css_rules a).
  split; [apply evaluateCSSPerformance_pushed|].
  unfold css_rules.
  destruct (Nat.ltb_spec (Css.willChangeUsage a) (Css.animationUsage a));
    destruct (Nat.ltb_spec 10 (Css.complexSelectors a));
    destruct (Nat.ltb_spec 5 (Css.importantUsage a));
    destruct (Nat.ltb_spec 500 (Css.totalRules a));
    cbn [app List.length with_priority filter priority String.eqb Ascii.eqb Bool.eqb Nat.add];
    settle.
Qed.

(** X12: The four rules of the script analysis.  [evaluateJSPerformance] returns
    and pushes at most four recommendations of type JavaScript: one of
    priority high exactly when [setTimeout] is used and
    [requestAnimationFrame] is not, one of priority medium when [setInterval]
    is used, one of priority medium for more than 20 DOM queries, one of
    priority low for more than 1000 lines. *)
Theorem script_rules :
  forall (a : Js.analysis) (w : World),
  exists added : list Recommendation,
    evaluateJSPerformance a w = Returned tt (pushed w added) /\
    List.length added <= 4 /\
    (forall rec, In rec added -> type rec = "JavaScript") /\
    ((exists rec, In rec added /\ priority rec = "high") <->
     Js.animationFrameUsage a = 0 /\ 0 < Js.setTimeoutUsage a) /\
    List.length (with_priority "medium" added)
    = (if 0 <? Js.setIntervalUsage a then 1 else 0)
      + (if 20 <? Js.domQueries a then 1 else 0) /\
    ((exists rec, In rec added /\ priority rec = "low") <-> 1000 < Js.totalLines a) /\
    (added = [] <->
     (0 < Js.animationFrameUsage a \/ Js.setTimeoutUsage a = 0) /\
     Js.setIntervalUsage a = 0 /\ Js.domQueries a <= 20 /\ Js.totalLines a <= 1000).
Proof.
  intros a w. exists (js_rules a).
  split; [apply evaluateJSPerformance_pushed|].
  unfold js_rules, timeout_recommendation.
  destruct (Nat.eqb_spec (Js.animationFrameUsage a) 0);
    destruct (Nat.ltb_spec 0 (Js.setTimeoutUsage a));
    destruct (Nat.ltb_spec 0 (Js.setIntervalUsage a));
    destruct (Nat.ltb_spec 20 (Js.domQueries a));
    destruct (Nat.ltb_spec 1000 (Js.totalLines a));
    cbn [andb app List.length with_priority filter priority String.eqb Ascii.eqb Bool.eqb
         Nat.add];
    settle.
Qed.

End Rules.

(** ** More about the rules of the asset analysis *)

Section AssetRules.

Local Open Scope Q_scope.

Lemma medium_of_large_assets (entries : list (string * Asset.detail)) :
  with_priority "medium"
    (flat_map (fun entry => if String.eqb (Asset.status (snd entry)) NeedsImprovement
                            then [large_asset_recommendation entry] else [])
              entries)
  = map large_asset_recommendation
        (filter (fun entry => String.eqb (Asset.status (snd entry)) NeedsImprovement) entries).
Proof.
  unfold with_priority.
  induction entries as [|e entries IH]; cbn [flat_map filter map]; [reflexivity|].
  rewrite filter_app, IH.
  destruct (String.eqb (Asset.status (snd e)) NeedsImprovement); reflexivity.
Qed.

(** X13: The rules of the asset analysis on the total and on the single assets.
    [evaluateAssetPerformance] pushes a recommendation of priority high
    exactly when the total of the inventory is above 5000 KB (5000 itself
    pushes nothing), and its recommendations of priority medium are one for
    each entry whose status is NeedsImprovement, in the order of the entries,
    each of type Assets and with a message that starts with the name of the
    asset.  How the size is printed in the message is left open. *)
Theorem asset_size_rules :
  forall (w : World) (inventory : Asset.analysis),
    assetAnalysis (results w) = Some inventory ->
    exists added : list Recommendation,
      evaluateAssetPerformance w = Returned tt (pushed w added) /\
      ((exists rec, In rec added /\ priority rec = "high") <->
       5000 < Asset.totalSize inventory) /\
      Forall2 names_large_asset
              (with_priority "medium" added)
              (filter (fun entry => String.eqb (Asset.status (snd entry)) NeedsImprovement)
                      (JsObject.entries (Asset.details inventory))).
Proof.
  intros w inventory Hinv. exists (asset_rules inventory).
  split; [now apply evaluateAssetPerformance_pushed|].
  unfold asset_rules. split.
  - split.
    + intros (rec & Hin & Hp). rewrite !in_app_iff, in_flat_map in Hin.
      destruct Hin as [Hin|[Hin|Hin]].
      * destruct (Qle_bool (Asset.totalSize inventory) 5000) eqn:E; [destruct Hin|].
        apply Qnot_le_lt. intros Hle. apply Qle_bool_iff in Hle. congruence.
      * destruct Hin as (entry & _ & Hin).
        destruct (String.eqb _ _); [destruct Hin as [<-|[]]; discriminate Hp | destruct Hin].
      * destruct (_ && _); [destruct Hin as [<-|[]]; discriminate Hp | destruct Hin].
    + intros Hlt. exists size_recommendation. split; [|reflexivity].
      apply in_or_app. left.
      destruct (Qle_bool (Asset.totalSize inventory) 5000) eqn:E; [|now left].
      apply Qle_bool_iff in E. lra.
  - unfold with_priority. rewrite !filter_app.
    fold (with_priority "medium"
            (flat_map (fun entry => if String.eqb (Asset.status (snd entry)) NeedsImprovement
                                    then [large_asset_recommendation entry] else [])
                      (JsObject.entries (Asset.details inventory)))).
    rewrite medium_of_large_assets.
    replace (filter _ (if negb _ then _ else _)) with (@nil Recommendation)
      by (destruct (negb _); reflexivity).
    replace (filter _ (if _ && _ then _ else _)) with (@nil Recommendation)
      by (destruct (_ && _); reflexivity).
    cbn [app]. rewrite app_nil_r.
    induction (filter _ (JsObject.entries (Asset.details inventory))) as [|entry rest IH];
      cbn [map]; constructor; [|exact IH].
    repeat split. eexists. reflexivity.
Qed.

Lemma asset_size_rules_witness :
  exists rec : Recommendation,
    with_priority "medium"
      (recommendations
         (results (world_of (evaluateAssetPerformance (inventoried constructor heavy_inventory)))))
    = [rec] /\
    names_large_asset rec
      ("hero.jpg", {| Asset.size := 6000; Asset.type := ".jpg";
                      Asset.status := NeedsImprovement |}).
Proof.
  destruct (asset_size_rules (inventoried constructor heavy_inventory) heavy_inventory eq_refl)
    as (added & Heq & _ & Hmedium).
  rewrite Heq. cbn [world_of pushed results recommendations inventoried constructor app].
  cbn in Hmedium.
  inversion Hmedium as [|rec entry recs entries Hrec Hrest Hrecs Hentries]; subst.
  inversion Hrest; subst.
  exists rec. split; [reflexivity | exact Hrec].
Defined.

(** X14: Without an inventory, as on a new runner, [evaluateAssetPerformance]
    throws the TypeError of [Object.entries(undefined)] and changes nothing. *)
Theorem asset_rules_need_an_inventory :
  forall w : World,
    assetAnalysis (results w) = None ->
    evaluateAssetPerformance w = Thrown "Cannot convert undefined or null to object" w.
Proof.
  intros w H. unfold evaluateAssetPerformance.
  erewrite bind_returned by reflexivity. now rewrite H.
Qed.

Lemma asset_rules_need_an_inventory_witness :
  evaluateAssetPerformance constructor
  = Thrown "Cannot convert undefined or null to object" constructor.
Proof. apply asset_rules_need_an_inventory. reflexivity. Defined.

End AssetRules.

(** ** The records of the inventory *)

Section Records.

Import Number.

Lemma own_replace_same {A} (o : JsObject.t A) (k : string) (v : A) :
  JsObject.own o k <> None -> JsObject.own (JsObject.replace o k v) k = Some v.
Proof.
  induction o as [|[k' v'] o IH]; cbn; [congruence|].
  destruct (String.eqb k k') eqn:E; cbn; rewrite E; [reflexivity | exact IH].
Qed.

Lemma own_replace_other {A} (o : JsObject.t A) (k k' : string) (v : A) :
  k' <> k -> JsObject.own (JsObject.replace o k v) k' = JsObject.own o k'.
Proof.
  intros Hne. induction o as [|[k0 v0] o IH]; cbn; [reflexivity|].
  destruct (String.eqb_spec k k0) as [<-|_]; cbn.
  - destruct (String.eqb_spec k' k); [contradiction | reflexivity].
  - now rewrite IH.
Qed.

Lemma own_insert_index_same {A} (o : JsObject.t A) (n : N) (k : string) (v : A) :
  JsObject.own o k = None -> JsObject.own (JsObject.insert_index o n k v) k = Some v.
Proof.
  induction o as [|[k' v'] o IH]; cbn; intros Ho.
  - now rewrite String.eqb_refl.
  - destruct (String.eqb k k') eqn:E; [discriminate|].
    destruct (JsObject.array_index k') as [n'|]; [destruct (n' <? n)%N|]; cbn;
      rewrite ?E, ?String.eqb_refl; auto.
Qed.

Lemma own_insert_index_other {A} (o : JsObject.t A) (n : N) (k k' : string) (v : A) :
  k' <> k -> JsObject.own (JsObject.insert_index o n k v) k' = JsObject.own o k'.
Proof.
  intros Hne. apply String.eqb_neq in Hne.
  induction o as [|[k0 v0] o IH]; cbn; [now rewrite Hne|].
  destruct (JsObject.array_index k0) as [n'|]; [destruct (n' <? n)%N|]; cbn;
    rewrite ?Hne, ?IH; reflexivity.
Qed.

Lemma own_app_same {A} (o : JsObject.t A) (k : string) (v : A) :
  JsObject.own o k = None -> JsObject.own (o ++ [(k, v)]) k = Some v.
Proof.
  induction o as [|[k' v'] o IH]; cbn; intros Ho.
  - now rewrite String.eqb_refl.
  - destruct (String.eqb k k'); [discriminate | auto].
Qed.

Lemma own_app_other {A} (o : JsObject.t A) (k k' : string) (v : A) :
  k' <> k -> JsObject.own (o ++ [(k, v)]) k' = JsObject.own o k'.
Proof.
  intros Hne. apply String.eqb_neq in Hne.
  induction o as [|[k0 v0] o IH]; cbn; [now rewrite Hne|].
  now rewrite IH.
Qed.

(** Reading back what was assigned, and reading another key. *)
Lemma own_set_same {A} (o : JsObject.t A) (k : string) (v : A) :
  k <> "__proto__" -> JsObject.own (JsObject.set o k v) k = Some v.
Proof.
  intros Hk. unfold JsObject.set.
  destruct (String.eqb_spec k "__proto__"); [contradiction|].
  destruct (JsObject.own o k) eqn:Eo.
  - apply own_replace_same. congruence.
  - destruct (JsObject.array_index k).
    + now apply own_insert_index_same.
    + now apply own_app_same.
Qed.

Lemma own_set_other {A} (o : JsObject.t A) (k k' : string) (v : A) :
  k' <> k -> JsObject.own (JsObject.set o k v) k' = JsObject.own o k'.
Proof.
  intros Hne. unfold JsObject.set.
  destruct (String.eqb k "__proto__"); [reflexivity|].
  destruct (JsObject.own o k).
  - now apply own_replace_other.
  - destruct (JsObject.array_index k).
    + now apply own_insert_index_other.
    + now apply own_app_other.
Qed.

Lemma own_of_listing_other (assets : list (string * N)) :
  forall (details : JsObject.t Asset.detail) (k : string),
    ~ In k (map fst assets) ->
    JsObject.own
      (fold_left (fun details asset => JsObject.set details (fst asset) (detail_of asset))
                 assets details) k
    = JsObject.own details k.
Proof.
  induction assets as [|a rest IH]; intros details k Hk; cbn [fold_left]; [reflexivity|].
  cbn [map In] in Hk. rewrite IH by tauto.
  apply own_set_other. intros E. apply Hk. now left.
Qed.

Lemma own_of_listing (assets : list (string * N)) :
  NoDup (map fst assets) ->
  forall (details : JsObject.t Asset.detail) (asset : string * N),
    In asset assets -> fst asset <> "__proto__" ->
    JsObject.own
      (fold_left (fun details asset => JsObject.set details (fst asset) (detail_of asset))
                 assets details) (fst asset)
    = Some (detail_of asset).
Proof.
  induction assets as [|a rest IH]; intros Hnd details asset Hin Hp; [destruct Hin|].
  cbn [map] in Hnd. inversion Hnd as [|x l Hnotin Hnd']; subst.
  cbn [fold_left]. destruct Hin as [->|Hin].
  - rewrite own_of_listing_other by exact Hnotin. now apply own_set_same.
  - now apply IH.
Qed.

(** X15: When the names of the directory are distinct, each listed asset other
    than [__proto__] can be read back from the details of the inventory under
    its name, with its size in KB (in the exact arithmetic of the model) and
    the verdict of the asset classifier on that size.  For a name of ASCII
    characters the record also holds the lower-cased extension of the
    name. *)
Theorem listed_assets_are_recorded :
  forall (env : Fs.Env) (assets : list (string * N)) (w : World),
    Fs.assets env = Some assets ->
    NoDup (map fst assets) ->
    exists (w' : World) (inventory : Asset.analysis),
      analyzeAssets env w = Returned tt w' /\
      assetAnalysis (results w') = Some inventory /\
      forall (name : string) (bytes : N),
        In (name, bytes) assets -> name <> "__proto__" ->
        exists detail : Asset.detail,
          JsObject.own (Asset.details inventory) name = Some detail /\
          Asset.size detail = kilobytes bytes /\
          Asset.status detail = evaluateAssetSize name (kilobytes bytes) /\
          (ascii_only name = true ->
           Asset.type detail = JsString.toLowerCase (path.extname name)).
Proof.
  intros env assets w Ha Hnd.
  destruct (analyzeAssets_returned env assets w Ha) as [lines Hr].
  do 2 eexists. split; [exact Hr|]. split; [reflexivity|].
  intros name bytes Hin Hp.
  exists (detail_of (name, bytes)).
  split; [apply (own_of_listing assets Hnd [] (name, bytes) Hin Hp)|].
  repeat split.
Qed.

Lemma listed_assets_are_recorded_witness :
  exists (inventory : Asset.analysis) (detail : Asset.detail),
    assetAnalysis
      (results (world_of (analyzeAssets (listing [("a.PNG", 1500%N); ("7", 2500%N)])
                                        constructor)))
    = Some inventory /\
    JsObject.own (Asset.details inventory) "a.PNG" = Some detail /\
    Asset.size detail = (146 # 100)%Q /\
    Asset.status detail = Good /\
    Asset.type detail = ".png".
Proof.
  destruct (listed_assets_are_recorded
              (listing [("a.PNG", 1500%N); ("7", 2500%N)])
              [("a.PNG", 1500%N); ("7", 2500%N)] constructor eq_refl)
    as (w' & inventory & Hr & Hi & Hown).
  - repeat constructor; cbn; intuition discriminate.
  - destruct (Hown "a.PNG" 1500%N) as (detail & Hd & Hsize & Hstatus & Htype);
      [now left | discriminate |].
    exists inventory, detail. rewrite Hr.
    split; [exact Hi|]. split; [exact Hd|].
    rewrite Hsize, Hstatus, (Htype eq_refl).
    repeat apply conj; reflexivity.
Defined.

(** X16: The keys of the details are the listed names other than [__proto__]: an
    entry of the directory with that name is counted in [totalAssets] but
    gets no record, the assignment replacing the prototype of the object. *)
Theorem details_keys_are_the_listed_names :
  forall (env : Fs.Env) (assets : list (string * N)) (w : World),
    Fs.assets env = Some assets ->
    exists (w' : World) (inventory : Asset.analysis),
      analyzeAssets env w = Returned tt w' /\
      assetAnalysis (results w') = Some inventory /\
      Asset.totalAssets inventory = List.length assets /\
      forall name : string,
        In name (JsObject.keys (Asset.details inventory)) <->
        In name (map fst assets) /\ name <> "__proto__".
Proof.
  intros env assets w Ha.
  destruct (analyzeAssets_returned env assets w Ha) as [lines Hr].
  do 2 eexists. split; [exact Hr|]. split; [reflexivity|]. split; [reflexivity|].
  intros name. cbn [inventory_of Asset.details].
  rewrite keys_of_listing. cbn. tauto.
Qed.

Lemma details_keys_are_the_listed_names_witness :
  exists inventory : Asset.analysis,
    assetAnalysis
      (results (world_of (analyzeAssets (listing [("__proto__", 9000000%N); ("a.png", 5%N)])
                                        constructor)))
    = Some inventory /\
    Asset.totalAssets inventory = 2 /\
    ~ In "__proto__" (JsObject.keys (Asset.details inventory)).
Proof.
  destruct (details_keys_are_the_listed_names
              (listing [("__proto__", 9000000%N); ("a.png", 5%N)])
              [("__proto__", 9000000%N); ("a.png", 5%N)] constructor eq_refl)
    as (w' & inventory & Hr & Hi & Hn & Hkeys).
  exists inventory. rewrite Hr. split; [exact Hi|]. split; [exact Hn|].
  intros Hin. apply Hkeys in Hin. destruct Hin as [_ Hne]. now apply Hne.
Defined.

End Records.

(** ** The report *)

Section ReportFacts.

Lemma generateReport_writes (env : Fs.Env) (w : World) :
  exists lines : list string,
    generateReport env w
    = Returned tt (logged (reported w (report_of env (results w))) lines).
Proof.
  unfold generateReport.
  do 2 (erewrite bind_returned by apply console_log_logged).
  erewrite bind_returned by reflexivity.
  do 2 (erewrite bind_returned by apply console_log_logged).
  erewrite bind_returned by apply printRecommendations_logged.
  do 5 (erewrite bind_returned by apply console_log_logged).
  rewrite !logged_logged.
  unfold saveJSONReport.
  erewrite bind_returned by reflexivity.
  erewrite bind_returned by reflexivity.
  rewrite console_log_logged.
  unfold logged, reported, report_of.
  cbn [results stdout stderr reportFile exitCode].
  rewrite <- !app_assoc.
  eexists. reflexivity.
Qed.

(** X17: [generateReport] only reads the results of the runner and the clock:
    it returns, leaves [this.results], the error stream and the exit code as
    they are, and writes a report that holds these results, their score and
    the time the clock shows.  A second call, at whatever time and on
    whatever file system, replaces the report by one with the same results,
    score and summary and the time of the second call. *)
Theorem report_reads_results :
  forall (env env' : Fs.Env) (w : World),
  exists (w' : World) (report report' : Report),
    generateReport env w = Returned tt w' /\
    results w' = results w /\ stderr w' = stderr w /\ exitCode w' = exitCode w /\
    reportFile w' = Some report /\
    report_details report = results w /\
    score report = computeScore (recommendations (results w)) /\
    timestamp report = Fs.now env /\
    totalFiles (summary report) = List.length (JsObject.keys (fileAnalysis (results w))) /\
    reportFile (world_of (generateReport env' w')) = Some report' /\
    report_details report' = report_details report /\
    score report' = score report /\
    summary report' = summary report /\
    timestamp report' = Fs.now env'.
Proof.
  intros env env' w.
  destruct (generateReport_writes env w) as [lines Hw].
  destruct (generateReport_writes env' (logged (reported w (report_of env (results w))) lines))
    as [lines' Hw'].
  exists (logged (reported w (report_of env (results w))) lines),
         (report_of env (results w)), (report_of env' (results w)).
  split; [exact Hw|].
  repeat apply conj; try reflexivity.
  rewrite Hw'. reflexivity.
Qed.

Lemma report_reads_results_witness :
  exists report report' : Report,
    reportFile (world_of (generateReport sample_site constructor)) = Some report /\
    reportFile (world_of (generateReport (later sample_site "2026-01-01T00:00:00.000Z")
                            (world_of (generateReport sample_site constructor))))
    = Some report' /\
    score report' = score report /\
    timestamp report' = "2026-01-01T00:00:00.000Z".
Proof.
  destruct (report_reads_results sample_site (later sample_site "2026-01-01T00:00:00.000Z")
              constructor)
    as (w' & report & report' & Hr & _ & _ & _ & Hfile & _ & _ & _ & _ & Hfile' & _ & Hscore & _ & Htime).
  exists report, report'. rewrite Hr. cbn [world_of].
  repeat apply conj; assumption.
Defined.

End ReportFacts.

(** ** The file sizes *)

Section FileFacts.

Import Number.

Lemma files_loop (env : Fs.Env) (files : list string) :
  NoDup files -> ~ In "__proto__" files ->
  forall w : World,
  exists w' : World,
    forEach files (fun file =>
      match Fs.file env file with
      | Some stats =>
          set_fileAnalysis file (file_entry file stats) ;;
          console_log (template ["  "; file; ": "; toString (kilobytes (Fs.size stats));
                                 "KB - "; FileSize.status (file_entry file stats)])
      | None => ret tt
      end) w = Returned tt w' /\
    (forall k, In k files ->
               JsObject.own (fileAnalysis (results w')) k
               = match Fs.file env k with
                 | Some stats => Some (file_entry k stats)
                 | None => JsObject.own (fileAnalysis (results w)) k
                 end) /\
    (forall k, ~ In k files ->
               JsObject.own (fileAnalysis (results w')) k
               = JsObject.own (fileAnalysis (results w)) k) /\
    cssAnalysis (results w') = cssAnalysis (results w) /\
    jsAnalysis (results w') = jsAnalysis (results w) /\
    assetAnalysis (results w') = assetAnalysis (results w) /\
    advances w w' [] /\ reportFile w' = reportFile w.
Proof.
  induction files as [|file rest IH]; intros Hnd Hp w.
  - exists w. cbn [forEach]. unfold ret, advances. rewrite app_nil_r.
    repeat apply conj; try reflexivity. intros k [].
  - inversion Hnd as [|x l Hnotin Hnd']; subst.
    assert (Hfile : file <> "__proto__") by (intros E; apply Hp; now left).
    assert (Hp' : ~ In "__proto__" rest) by (intros E; apply Hp; now right).
    cbn [forEach]. unfold bind at 1.
    destruct (Fs.file env file) as [stats|] eqn:Ef.
    + unfold bind at 1. unfold set_fileAnalysis at 1. unfold update at 1.
      unfold console_log at 1.
      match goal with
      | |- context [forEach rest ?f ?w1] => destruct (IH Hnd' Hp' w1)
          as (w' & Hr & Hin & Hout & Hc & Hj & Ha & (Hrecs & Herr & Hexit) & Hrep)
      end.
      exists w'. split; [exact Hr|].
      cbn [results fileAnalysis cssAnalysis jsAnalysis assetAnalysis recommendations
           stderr exitCode reportFile] in Hin, Hout, Hc, Hj, Ha, Hrecs, Herr, Hexit, Hrep.
      repeat apply conj; try assumption.
      * intros k [<-|Hk].
        -- rewrite Ef, Hout by exact Hnotin. now apply own_set_same.
        -- rewrite Hin by exact Hk.
           destruct (Fs.file env k); [reflexivity|].
           apply own_set_other. intros ->. contradiction.
      * intros k Hk. rewrite Hout by (intros E; apply Hk; now right).
        apply own_set_other. intros ->. apply Hk. now left.
    + unfold ret at 1.
      destruct (IH Hnd' Hp' w) as (w' & Hr & Hin & Hout & Hrest).
      exists w'. split; [exact Hr|]. split; [|split; [|exact Hrest]].
      * intros k [<-|Hk]; [rewrite Ef; now apply Hout | now apply Hin].
      * intros k Hk. apply Hout. intros E. apply Hk. now right.
Qed.

(** X18: What [analyzeFileSizes] does to the table of file sizes.  It returns,
    whatever exists.  For each of the four watched files that exists the
    table then holds its size in KB and its verdict; for a watched file that
    does not exist the entry is left as it was (none on a new runner, the
    stale one after an earlier run); every other key is left alone.  It pushes
    no recommendation and touches no other analysis. *)
Theorem file_sizes_recorded :
  forall (env : Fs.Env) (w : World),
  exists w' : World,
    analyzeFileSizes env w = Returned tt w' /\
    (forall file, In file watched_files ->
                  JsObject.own (fileAnalysis (results w')) file
                  = match Fs.file env file with
                    | Some stats =>
                        Some {| FileSize.size := kilobytes (Fs.size stats);
                                FileSize.status :=
                                  evaluateFileSize file (kilobytes (Fs.size stats)) |}
                    | None => JsObject.own (fileAnalysis (results w)) file
                    end) /\
    (forall key, ~ In key watched_files ->
                 JsObject.own (fileAnalysis (results w')) key
                 = JsObject.own (fileAnalysis (results w)) key) /\
    recommendations (results w') = recommendations (results w) /\
    cssAnalysis (results w') = cssAnalysis (results w) /\
    jsAnalysis (results w') = jsAnalysis (results w) /\
    assetAnalysis (results w') = assetAnalysis (results w).
Proof.
  intros env w. unfold analyzeFileSizes.
  erewrite bind_returned by apply console_log_logged.
  cbv zeta.
  destruct (files_loop env watched_files) with (w := logged w ["📊 ファイルサイズ分析中..."])
    as (w' & Hr & Hin & Hout & Hc & Hj & Ha & (Hrecs & _) & _).
  - repeat constructor; cbn; intuition discriminate.
  - cbn. intuition discriminate.
  - exists w'. split; [exact Hr|].
    rewrite app_nil_r in Hrecs.
    repeat apply conj; assumption.
Qed.

End FileFacts.

Lemma file_sizes_recorded_witness :
  JsObject.own
    (fileAnalysis (results (world_of (analyzeFileSizes sample_site constructor))))
    "styles.css"
  = Some {| FileSize.size := Number.kilobytes 60000;
            FileSize.status := evaluateFileSize "styles.css" (Number.kilobytes 60000) |}.
Proof.
  destruct (file_sizes_recorded sample_site constructor) as (w' & Hr & Hin & _).
  rewrite Hr. cbn [world_of].
  rewrite (Hin "styles.css"); [reflexivity | cbn; tauto].
Defined.

(** ** A whole run *)

Section RunFacts.

Lemma advances_refl (w : World) : advances w w [].
Proof. unfold advances. now rewrite app_nil_r. Qed.

Lemma advances_trans (w1 w2 w3 : World) (a b : list Recommendation) :
  advances w1 w2 a -> advances w2 w3 b -> advances w1 w3 (a ++ b).
Proof.
  intros (R1 & E1 & X1) (R2 & E2 & X2). unfold advances.
  rewrite R2, R1, E2, E1, X2, X1, app_assoc. auto.
Qed.

Lemma advances_logged (w : World) (lines : list string) : advances w (logged w lines) [].
Proof. unfold advances. cbn. now rewrite app_nil_r. Qed.

Lemma analyzeFileSizes_advances (env : Fs.Env) (w : World) :
  exists w', analyzeFileSizes env w = Returned tt w' /\ advances w w' [].
Proof.
  unfold analyzeFileSizes.
  erewrite bind_returned by apply console_log_logged.
  cbv zeta.
  destruct (files_loop env watched_files) with (w := logged w ["📊 ファイルサイズ分析中..."])
    as (w' & Hr & _ & _ & _ & _ & _ & Hadv & _).
  - repeat constructor; cbn; intuition discriminate.
  - cbn. intuition discriminate.
  - exists w'. split; [exact Hr | exact Hadv].
Qed.

Lemma analyzeCSSPerformance_advances (env : Fs.Env) (w : World) :
  exists w', analyzeCSSPerformance env w = Returned tt w' /\ advances w w' (css_findings env).
Proof.
  unfold analyzeCSSPerformance, css_findings.
  erewrite bind_returned by apply console_log_logged.
  destruct (Fs.file env "styles.css") as [f|].
  - cbv zeta.
    erewrite bind_returned by reflexivity.
    do 10 (erewrite bind_returned by apply console_log_logged).
    rewrite evaluateCSSPerformance_pushed.
    eexists. split; [reflexivity|].
    unfold advances. cbn [pushed logged results recommendations stderr exitCode]. auto.
  - rewrite console_log_logged, logged_logged.
    eexists. split; [reflexivity | apply advances_logged].
Qed.

Lemma analyzeJSPerformance_advances (env : Fs.Env) (w : World) :
  exists w', analyzeJSPerformance env w = Returned tt w' /\ advances w w' (js_findings env).
Proof.
  unfold analyzeJSPerformance, js_findings.
  erewrite bind_returned by apply console_log_logged.
  destruct (Fs.file env "index.html") as [f|].
  - cbv zeta.
    erewrite bind_returned by reflexivity.
    do 7 (erewrite bind_returned by apply console_log_logged).
    rewrite evaluateJSPerformance_pushed.
    eexists. split; [reflexivity|].
    unfold advances. cbn [pushed logged results recommendations stderr exitCode]. auto.
  - rewrite console_log_logged, logged_logged.
    eexists. split; [reflexivity | apply advances_logged].
Qed.

Lemma analyzeAssets_advances (env : Fs.Env) (w : World) :
  exists w', analyzeAssets env w = Returned tt w' /\ advances w w' (asset_findings env).
Proof.
  unfold asset_findings.
  destruct (Fs.assets env) as [assets|] eqn:Ea.
  - destruct (analyzeAssets_returned env assets w Ea) as [lines Hr].
    eexists. split; [exact Hr|].
    unfold advances. cbn [pushed logged inventoried results recommendations stderr exitCode].
    auto.
  - unfold analyzeAssets. rewrite Ea.
    erewrite bind_returned by apply console_log_logged.
    rewrite console_log_logged, logged_logged.
    eexists. split; [reflexivity | apply advances_logged].
Qed.

(** The body of [run] up to the report, before whatever follows. *)
Lemma analyses_advance (env : Fs.Env) (w : World) :
  exists w',
    advances w w' (run_findings env) /\
    forall rest : M unit,
      (analyzeFileSizes env ;; console_log "" ;;
       analyzeCSSPerformance env ;; console_log "" ;;
       analyzeJSPerformance env ;; console_log "" ;;
       analyzeAssets env ;; console_log "" ;; rest) w = rest w'.
Proof.
  destruct (analyzeFileSizes_advances env w) as (w1 & H1 & A1).
  destruct (analyzeCSSPerformance_advances env (logged w1 [""])) as (w2 & H2 & A2).
  destruct (analyzeJSPerformance_advances env (logged w2 [""])) as (w3 & H3 & A3).
  destruct (analyzeAssets_advances env (logged w3 [""])) as (w4 & H4 & A4).
  exists (logged w4 [""]). split.
  - unfold run_findings.
    pose proof (advances_trans _ _ _ _ _ A1 (advances_logged w1 [""])) as B1.
    pose proof (advances_trans _ _ _ _ _ B1 A2) as B2.
    pose proof (advances_trans _ _ _ _ _ B2 (advances_logged w2 [""])) as B3.
    pose proof (advances_trans _ _ _ _ _ B3 A3) as B4.
    pose proof (advances_trans _ _ _ _ _ B4 (advances_logged w3 [""])) as B5.
    pose proof (advances_trans _ _ _ _ _ B5 A4) as B6.
    pose proof (advances_trans _ _ _ _ _ B6 (advances_logged w4 [""])) as B7.
    cbn [app] in B7. rewrite !app_nil_r in B7. rewrite <- ?app_assoc in B7. exact B7.
  - intros rest.
    erewrite bind_returned by exact H1.
    erewrite bind_returned by apply console_log_logged.
    erewrite bind_returned by exact H2.
    erewrite bind_returned by apply console_log_logged.
    erewrite bind_returned by exact H3.
    erewrite bind_returned by apply console_log_logged.
    erewrite bind_returned by exact H4.
    erewrite bind_returned by apply console_log_logged.
    reflexivity.
Qed.

Lemma run_returned (env : Fs.Env) (w : World) :
  exists (w1 : World) (lines : list string),
    advances w w1 (run_findings env) /\
    run env w = Returned tt (logged (reported w1 (report_of env (results w1))) lines).
Proof.
  unfold run.
  erewrite bind_returned by apply console_log_logged.
  unfold try_catch.
  match goal with
  | |- context [bind _ _ ?w0] => destruct (analyses_advance env w0) as (w1 & A & Hrest)
  end.
  rewrite Hrest.
  destruct (generateReport_writes env w1) as [lines Hg].
  erewrite bind_returned by exact Hg.
  rewrite console_log_logged, logged_logged.
  exists w1. eexists. split; [|reflexivity].
  destruct A as (R & E & X). unfold advances. cbn in R, E, X. auto.
Qed.

(** X19: A run in which every call of the file system succeeds, which is what
    an [Fs.Env] describes, ends with the report.  Whatever the runner held
    before, [run] returns, leaves the error stream and the exit code as they
    are, and the report it leaves holds the results of the runner after the
    four analyses, their score and the time of the clock.  None of the
    runner's own steps throws in such a run: [evaluateAssetPerformance] is
    only called once [analyzeAssets] has stored the inventory.  A run in
    which a call of the file system throws goes to the [catch]; it is
    outside the model. *)
Theorem run_always_reports :
  forall (env : Fs.Env) (w : World),
  exists (w' : World) (report : Report),
    run env w = Returned tt w' /\
    stderr w' = stderr w /\ exitCode w' = exitCode w /\
    reportFile w' = Some report /\
    report_details report = results w' /\
    score report = computeScore (recommendations (results w')) /\
    timestamp report = Fs.now env.
Proof.
  intros env w.
  destruct (run_returned env w) as (w1 & lines & (_ & E & X) & Hr).
  do 2 eexists. split; [exact Hr|].
  cbn [logged reported results stderr exitCode reportFile].
  repeat apply conj; try reflexivity; assumption.
Qed.

(** X20: A runner never forgets: what [run] pushes depends on the file system
    only, and it is appended to the recommendations the runner already
    holds.  Running twice on the same files therefore counts every finding
    twice, and the second score is not above the first. *)
Theorem run_appends_its_findings :
  forall (env : Fs.Env) (w : World),
    let w1 := world_of (run env w) in
    let w2 := world_of (run env w1) in
    recommendations (results w1) = recommendations (results w) ++ run_findings env /\
    recommendations (results w2)
    = recommendations (results w) ++ run_findings env ++ run_findings env /\
    (computeScore (recommendations (results w2))
     <= computeScore (recommendations (results w1)))%Z.
Proof.
  intros env w.
  destruct (run_returned env w) as (v1 & lines1 & (R1 & _) & H1).
  cbv zeta. rewrite H1. cbn [world_of].
  destruct (run_returned env (logged (reported v1 (report_of env (results v1))) lines1))
    as (v2 & lines2 & (R2 & _) & H2).
  rewrite H2. cbn [world_of].
  cbn [logged reported results] in R2 |- *.
  rewrite R2, R1, <- app_assoc.
  repeat apply conj; try reflexivity.
  rewrite (app_assoc (recommendations (results w))).
  apply score_never_rises_lemma.
Qed.

End RunFacts.

(** ** Lines of text *)

Section LineFacts.

Lemma split_length (sep : ascii) (s : string) :
  List.length (JsString.split sep s)
  = S ((fix feeds (s : string) : nat :=
          match s with
          | EmptyString => 0
          | String c s' => (if Ascii.eqb c sep then 1 else 0) + feeds s'
          end) s).
Proof.
  induction s as [|c s IH]; cbn [JsString.split]; [reflexivity|].
  destruct (Ascii.eqb c sep); cbn [List.length Nat.add].
  - now rewrite IH.
  - destruct (JsString.split sep s) as [|seg segs]; [discriminate IH | exact IH].
Qed.

(** X21: The line count of a stylesheet is one more than the number of its line
    feeds: an empty stylesheet has one line, and a line feed at the very end
    opens one more line. *)
Theorem stylesheet_line_count :
  forall cssContent : string,
    Css.totalLines (cssMetrics cssContent) = S (line_feeds cssContent) /\
    Css.totalLines (cssMetrics (cssContent ++ String JsString.LF EmptyString)%string)
    = S (Css.totalLines (cssMetrics cssContent)).
Proof.
  intros cssContent.
  assert (E : forall s, Css.totalLines (cssMetrics s) = S (line_feeds s)).
  { intros s. cbn [cssMetrics Css.totalLines]. apply split_length. }
  split; [apply E|]. rewrite !E. f_equal.
  induction cssContent as [|c s IH]; [reflexivity|].
  cbn [String.append line_feeds]. rewrite IH. lia.
Qed.

Lemma lines_of_scripts (scripts : list string) :
  forall c : counters,
    totalJSLines c + List.length scripts <= totalJSLines (fold_left count_script scripts c).
Proof.
  induction scripts as [|script rest IH]; intros c; cbn [fold_left List.length]; [lia|].
  specialize (IH (count_script c script)).
  cbn [count_script totalJSLines] in IH.
  rewrite split_length in IH. lia.
Qed.

(** X22: Every script block counts for at least one line: the total of lines is
    never below the number of blocks. *)
Theorem script_lines_cover_blocks :
  forall htmlContent : string,
    Js.scriptTags (jsMetrics htmlContent) <= Js.totalLines (jsMetrics htmlContent).
Proof.
  intros htmlContent. cbn [jsMetrics Js.scriptTags Js.totalLines].
  pose proof (lines_of_scripts (scriptMatches htmlContent)
                {| totalJSLines := 0; eventListeners := 0; setTimeoutUsage := 0;
                   setIntervalUsage := 0; animationFrameUsage := 0; domQueries := 0 |}) as H.
  cbn [totalJSLines Nat.add] in H. exact H.
Qed.

End LineFacts.

(** ** Nothing is left out of the printed list *)

Section PrintFacts.

Lemma numbered_from (rs : list Recommendation) :
  forall (k : nat) (rec : Recommendation),
    In rec rs ->
    exists n, k <= n /\ n < k + List.length rs
              /\ In (n, rec) (combine (seq k (List.length rs)) rs).
Proof.
  induction rs as [|r rs IH]; intros k rec Hin; [destruct Hin|].
  cbn [List.length seq combine]. destruct Hin as [->|Hin].
  - exists k. repeat split; [lia | lia | now left].
  - destruct (IH (S k) rec Hin) as (n & H1 & H2 & H3).
    exists n. repeat split; [lia | lia | now right].
Qed.

Lemma group_lines_complete (p : string) (recs : list Recommendation) (rec : Recommendation) :
  In rec recs -> priority rec = p ->
  exists n, 1 <= n /\ n <= List.length recs /\ In (item_line n rec) (group_lines p recs).
Proof.
  intros Hin Hp.
  assert (Hf : In rec (with_priority p recs)).
  { unfold with_priority. apply filter_In. split; [exact Hin | now apply String.eqb_eq]. }
  assert (Hlen : List.length (with_priority p recs) <= List.length recs)
    by apply filter_length_le.
  unfold group_lines.
  destruct (with_priority p recs) as [|r rs] eqn:E; [destruct Hf|].
  destruct (numbered_from (r :: rs) 1 rec Hf) as (n & H1 & H2 & H3).
  exists n. repeat split; [lia | lia |].
  right. unfold numbered.
  apply (in_map (fun e => item_line (fst e) (snd e))) in H3. exact H3.
Qed.

(** X23: Every recommendation of priority high, medium or low is printed, under a
    number from 1 to the length of the list. *)
Theorem known_priorities_are_printed :
  forall (recs : list Recommendation) (rec : Recommendation) (w : World),
    In rec recs ->
    priority rec = "high" \/ priority rec = "medium" \/ priority rec = "low" ->
    exists n : nat,
      1 <= n /\ n <= List.length recs /\
      In (item_line n rec) (stdout (world_of (printRecommendations recs w))).
Proof.
  intros recs rec w Hin Hp.
  rewrite printRecommendations_logged. cbn [world_of logged stdout].
  assert (Hne : recs <> []) by (destruct recs; [destruct Hin | discriminate]).
  destruct recs as [|r0 recs0]; [contradiction|].
  cbn [recommendation_lines].
  destruct Hp as [Hp|[Hp|Hp]];
    destruct (group_lines_complete _ (r0 :: recs0) rec Hin Hp) as (n & H1 & H2 & H3);
    exists n; repeat split; try assumption;
    apply in_or_app; right; right; rewrite !in_app_iff; tauto.
Qed.

Lemma known_priorities_are_printed_witness :
  exists n : nat,
    1 <= n /\ n <= 2 /\
    In (item_line n (sample "low"))
       (stdout (world_of (printRecommendations [sample "high"; sample "low"] constructor))).
Proof.
  apply (known_priorities_are_printed [sample "high"; sample "low"] (sample "low") constructor).
  - right. now left.
  - right. right. reflexivity.
Defined.

End PrintFacts.

(** ** How low the stylesheet and the scripts can bring the score *)

Section ScoreFloor.

Local Open Scope Z_scope.







End ScoreFloor.

(** ** Further edge cases *)

Section EdgeFacts.

(** X25: A markup in which the text [<script] does not occur, in any mix of upper
    and lower case, gives metrics that are all zero. *)
Theorem markup_without_script_text :
  forall htmlContent : string,
    occurs true "<script" htmlContent = false ->
    jsMetrics htmlContent = no_metrics.
Proof.
  intros htmlContent H. unfold jsMetrics.
  rewrite (no_opening_tag_no_block htmlContent H). reflexivity.
Qed.

Lemma markup_without_script_text_witness :
  jsMetrics "<p onclick='setTimeout(f, 1)'>Scripts come later</p>" = no_metrics.
Proof. apply markup_without_script_text. reflexivity. Defined.

Lemma inherited_is_unlisted (filename : string) :
  JsObject.inherited filename = true -> JsObject.own file_limits filename = None.
Proof.
  unfold JsObject.inherited, JsObject.prototype_keys. cbn [existsb].
  repeat match goal with
         | |- (String.eqb filename ?k || _)%bool = true -> _ =>
             destruct (String.eqb_spec filename k) as [->|_]; [reflexivity|];
             cbn [orb]
         end.
  discriminate.
Qed.

(** X26: For a name that every object inherits from [Object.prototype]
    ([constructor], [toString], ...) the per-file classifier reads a function
    where it expects a limit, the default does not apply, and the verdict is
    NeedsImprovement whatever the size. *)
Theorem prototype_names_need_improvement :
  forall (filename : string) (sizeKB : Q),
    JsObject.inherited filename = true ->
    evaluateFileSize filename sizeKB = NeedsImprovement.
Proof.
  intros filename sizeKB H.
  rewrite evaluateFileSize_rule. unfold fileLimit, JsObject.get.
  now rewrite (inherited_is_unlisted filename H), H.
Qed.

Lemma prototype_names_need_improvement_witness :
  evaluateFileSize "constructor" 1 = NeedsImprovement.
Proof. apply prototype_names_need_improvement. reflexivity. Defined.

(** X27: The WebP rule on a directory: [analyzeAssets] pushes the recommendation
    to use WebP exactly when the directory lists at least one entry and no
    entry whose extension is [.webp] in any case. *)
Theorem webp_rule_on_a_directory :
  forall (env : Fs.Env) (assets : list (string * N)) (w : World),
    Fs.assets env = Some assets ->
    exists (w' : World) (added : list Recommendation),
      analyzeAssets env w = Returned tt w' /\
      recommendations (results w') = recommendations (results w) ++ added /\
      (In webp_recommendation added <->
       assets <> [] /\
       forall asset, In asset assets ->
                     JsString.toLowerCase (path.extname (fst asset)) <> ".webp").
Proof.
  intros env assets w Ha.
  destruct (analyzeAssets_returned env assets w Ha) as [lines Hr].
  exists (pushed (logged (inventoried w (inventory_of assets)) lines)
                 (asset_rules (inventory_of assets))), (asset_rules (inventory_of assets)).
  split; [exact Hr|]. split; [reflexivity|].
  apply webp_recommended_for_listing.
Qed.

Lemma webp_rule_on_a_directory_witness :
  In webp_recommendation
     (recommendations
        (results (world_of (analyzeAssets (listing [("a.png", 1500%N); ("b.gif", 2500%N)])
                                          constructor)))).
Proof.
  destruct (webp_rule_on_a_directory
              (listing [("a.png", 1500%N); ("b.gif", 2500%N)])
              [("a.png", 1500%N); ("b.gif", 2500%N)] constructor eq_refl)
    as (w' & added & Hr & Hrecs & Hiff).
  rewrite Hr. cbn [world_of]. rewrite Hrecs. apply in_or_app. right.
  apply Hiff. split; [discriminate|].
  intros asset [<-|[<-|[]]]; vm_compute; intros H; discriminate H.
Defined.

End EdgeFacts.
